(** * The retrieval plugin's HTTP layer (server/main.py)

    A shallow embedding of the request handlers of [server/main.py]: the
    bearer-token dependency, the seven route handlers and the startup hook,
    written in a state-and-exception monad over the process state (the
    module-level [datastore] global, the state reachable through the backend
    handle, and a chronological trace of the side effects the handlers
    perform).  The datastore, the metadata parser, the file extractor and
    the completion provider live in other modules of the repository; they
    enter as parameters of the handlers. *)

From Stdlib Require Import String Ascii List ZArith Bool.
Import ListNotations.

Local Open Scope string_scope.
Local Open Scope Z_scope.
Local Open Scope list_scope.

(** ** Python truthiness

    [if x], [not x] and [x or y] consult the truth protocol of [x]: [None],
    [False], the empty string and the empty list are false; an object whose
    class defines neither [__bool__] nor [__len__] is true. *)

Class Truthy (A : Type) := truthy : A -> bool.

#[global] Instance Truthy_bool : Truthy bool := fun b => b.

#[global] Instance Truthy_str : Truthy string :=
  fun s => match s with EmptyString => false | String _ _ => true end.

#[global] Instance Truthy_list {A : Type} : Truthy (list A) :=
  fun l => match l with [] => false | _ :: _ => true end.

#[global] Instance Truthy_Optional {A : Type} `{Truthy A} : Truthy (option A) :=
  fun o => match o with None => false | Some a => truthy a end.

(** ** Data model (models/models.py, models/api.py) *)

Module Source.
Inductive t : Type := email | file | chat | other.
End Source.

Module DocumentMetadata.
(** Modelled from the spec: the class [DocumentMetadata] of models/models.py,
    a module outside server/main.py; section 3 of the specification gives
    its fields, all optional. *)
Record t : Type := mk {
  source : option Source.t;
  source_id : option string;
  url : option string;
  created_at : option string;
  author : option string
}.
End DocumentMetadata.

Module DocumentMetadataFilter.
(** Modelled from the spec: the class [DocumentMetadataFilter] of
    models/models.py, with the constraints section 3 lists. *)
Record t : Type := mk {
  document_id : option string;
  source : option Source.t;
  source_id : option string;
  author : option string;
  start_date : option string;
  end_date : option string
}.
End DocumentMetadataFilter.

(** A filter object is an instance of a plain data class: it is true whatever
    its fields hold. *)
#[global] Instance Truthy_DocumentMetadataFilter : Truthy DocumentMetadataFilter.t :=
  fun _ => true.

Module Document.
(** Modelled from the spec: the class [Document] of models/models.py. *)
Record t : Type := mk {
  id : option string;
  text : string;
  metadata : option DocumentMetadata.t
}.
End Document.

Module Query.
(** Modelled from the spec: the class [Query] of models/models.py; the
    handler [chat] builds one with the three keywords below. *)
Record t : Type := mk {
  query : string;
  filter : option DocumentMetadataFilter.t;
  top_k : Z
}.
End Query.

Module DocumentChunkWithScore.
(** Modelled from the spec: a result chunk carries its text, its metadata
    (the document's metadata and the back-reference) and a similarity
    score.  The handlers read [text] only; the type of scores is left
    abstract. *)
Record t (float : Type) : Type := mk {
  id : option string;
  text : string;
  metadata : DocumentMetadata.t;
  document_id : option string;
  score : float
}.
Arguments mk {float}.
Arguments id {float}.
Arguments text {float}.
Arguments metadata {float}.
Arguments document_id {float}.
Arguments score {float}.
End DocumentChunkWithScore.

Module QueryResult.
(** Modelled from the spec: the class [QueryResult] of models/models.py;
    [chat] reads [results[0].results]. *)
Record t (float : Type) : Type := mk {
  query : string;
  results : list (DocumentChunkWithScore.t float)
}.
Arguments mk {float}.
Arguments query {float}.
Arguments results {float}.
End QueryResult.

(** The request and response classes of models/api.py, with the fields the
    handlers read ([request.documents], [request.queries], [request.ids],
    [request.filter], [request.delete_all], [requests.content]) and set
    ([ids=], [results=], [success=]). *)

Module UpsertRequest.
Record t : Type := mk { documents : list Document.t }.
End UpsertRequest.

Module UpsertResponse.
Record t : Type := mk { ids : list string }.
End UpsertResponse.

Module QueryRequest.
Record t : Type := mk { queries : list Query.t }.
End QueryRequest.

Module QueryResponse.
Record t (float : Type) : Type := mk { results : list (QueryResult.t float) }.
Arguments mk {float}.
Arguments results {float}.
End QueryResponse.

Module DeleteRequest.
Record t : Type := mk {
  ids : option (list string);
  filter : option DocumentMetadataFilter.t;
  delete_all : option bool
}.
End DeleteRequest.

Module DeleteResponse.
Record t : Type := mk { success : bool }.
End DeleteResponse.

Module ChatRequest.
Record t : Type := mk { content : string }.
End ChatRequest.

Module HTTPAuthorizationCredentials.
(** fastapi.security: what [HTTPBearer] extracts from the Authorization
    header. *)
Record t : Type := mk { scheme : string; credentials : string }.
End HTTPAuthorizationCredentials.

Module UploadFile.
(** fastapi: an uploaded file, as the handler passes it on. *)
Record t : Type := mk {
  filename : option string;
  content_type : option string;
  body : string
}.
End UploadFile.

(** A chat message: the dict with keys "role" and "content". *)
Module Message.
Record t : Type := mk { role : string; content : string }.
End Message.

(** ** Exceptions

    Instances of [Exception].  [HTTPException] is the exception the handlers
    raise themselves; [NameError] and [IndexError] are raised by the
    interpreter inside the handlers; [Error] stands for any other instance,
    raised by a collaborator, with its class name and message. *)

Inductive Exception : Type :=
| HTTPException (status_code : Z) (detail : string)
| NameError (msg : string)
| IndexError (msg : string)
| Error (cls : string) (msg : string).

Inductive Outcome (A : Type) : Type :=
| Return (a : A)
| Raise (e : Exception).
Arguments Return {A}.
Arguments Raise {A}.

(** ** Side effects

    What a handler does besides computing its response, in the order in
    which it does it. *)

Inductive PyObject : Type :=
| PyStr (s : string)
| PyExc (e : Exception)
| PyCredentials (c : HTTPAuthorizationCredentials.t)
| PyMessages (ms : list Message.t).

Inductive Event : Type :=
| Print (args : list PyObject)
| PrintExc (e : Exception)
| GetDatastore
| AssignDatastore
| DatastoreUpsert (documents : list Document.t)
| DatastoreQuery (queries : list Query.t)
| DatastoreDelete (ids : option (list string))
                  (filter : option DocumentMetadataFilter.t)
                  (delete_all : option bool)
| GetDocumentFromFile (file : UploadFile.t) (metadata : DocumentMetadata.t)
| GetChatCompletion (messages : list Message.t)
| ListIndexes.

Definition is_datastore_call (ev : Event) : bool :=
  match ev with
  | DatastoreUpsert _ | DatastoreQuery _ | DatastoreDelete _ _ _ => true
  | _ => false
  end.

Definition is_assignment (ev : Event) : bool :=
  match ev with AssignDatastore => true | _ => false end.

Definition is_traceback (ev : Event) : bool :=
  match ev with PrintExc _ => true | _ => false end.

(** ** The datastore interface (datastore/datastore.py)

    A backend handle is an object with the three coroutines [upsert],
    [query] and [delete].  [Backend] is the state reachable through the
    handle (the vector index); a call returns or raises, and leaves a new
    state. *)

Module DataStore.
Record t (float Backend : Type) : Type := mk {
  upsert : list Document.t -> Backend -> Outcome (list string) * Backend;
  query : list Query.t -> Backend ->
            Outcome (list (QueryResult.t float)) * Backend;
  delete : option (list string) -> option DocumentMetadataFilter.t ->
             option bool -> Backend -> Outcome bool * Backend
}.
Arguments mk {float Backend}.
Arguments upsert {float Backend}.
Arguments query {float Backend}.
Arguments delete {float Backend}.
End DataStore.

(** ** Process state and the handler monad *)

Record World (float Backend : Type) : Type := mkWorld {
  datastore : option (DataStore.t float Backend);
  backend : Backend;
  trace : list Event
}.
Arguments mkWorld {float Backend}.
Arguments datastore {float Backend}.
Arguments backend {float Backend}.
Arguments trace {float Backend}.

Definition M (float Backend A : Type) : Type :=
  World float Backend -> Outcome A * World float Backend.

Section Monad.
Context {float Backend : Type}.
Local Abbreviation W := (World float Backend).
Local Abbreviation M := (M float Backend).

Definition ret {A} (a : A) : M A := fun w => (Return a, w).

Definition raise {A} (e : Exception) : M A := fun w => (Raise e, w).

Definition bind {A B} (m : M A) (k : A -> M B) : M B :=
    fun w =>
      match m w with
      | (Return a, w') => k a w'
      | (Raise e, w') => (Raise e, w')
      end.

  (** [try: m except Exception as e: h e] (and the bare [except:]). *)
Definition try_except {A} (m : M A) (h : Exception -> M A) : M A :=
    fun w =>
      match m w with
      | (Return a, w') => (Return a, w')
      | (Raise e, w') => h e w'
      end.

Definition emit (ev : Event) : M unit :=
    fun w => (Return tt, mkWorld (datastore w) (backend w) (trace w ++ [ev])).

  (** A pure computation that returns or raises. *)
Definition lift {A} (o : Outcome A) : M A := fun w => (o, w).

  (** A call through the backend handle: it returns or raises and updates
      the state behind the handle. *)
Definition on_backend {A} (f : Backend -> Outcome A * Backend) : M A :=
    fun w =>
      let (o, b) := f (backend w) in
      (o, mkWorld (datastore w) b (trace w)).

  (** Reading the module-level name [datastore]. *)
Definition global_datastore : M (DataStore.t float Backend) :=
    fun w =>
      match datastore w with
      | Some ds => (Return ds, w)
      | None => (Raise (NameError "name 'datastore' is not defined"), w)
      end.

  (** [global datastore; datastore = ds]. *)
Definition assign_datastore (ds : DataStore.t float Backend) : M unit :=
    fun w =>
      (Return tt, mkWorld (Some ds) (backend w) (trace w ++ [AssignDatastore])).

Definition print (args : list PyObject) : M unit := emit (Print args).

  (** [traceback.print_exc()] inside an [except] clause handling [e]. *)
Definition print_exc (e : Exception) : M unit := emit (PrintExc e).
End Monad.

Declare Scope py_scope.
Delimit Scope py_scope with py.
Notation "x <- m ;; k" := (bind m (fun x => k))
  (at level 61, m at next level, right associativity) : py_scope.
Notation "m ;; k" := (bind m (fun _ => k))
  (at level 61, right associativity) : py_scope.

Notation "x <- m ;; k" := (bind m (fun x => k))
  (at level 61, m at next level, right associativity) : py_scope.
Notation "m ;; k" := (bind m (fun _ => k))
  (at level 61, right associativity) : py_scope.

(** ** Strings *)

Definition nl : string := String "010"%char EmptyString.

Definition dquote : string := String "034"%char EmptyString.

(** [s.replace(old, new)] for a one-character [old]. *)
Fixpoint str_replace (old : ascii) (new : string) (s : string) : string :=
  match s with
  | EmptyString => EmptyString
  | String c s' =>
      if Ascii.eqb c old then (new ++ str_replace old new s')%string
      else String c (str_replace old new s')
  end.

(** [sep.join(l)]. *)
Definition str_join (sep : string) (l : list string) : string :=
  String.concat sep l.

(** [s.lower()] on the ASCII letters, which is all the comparison with
    "bearer" can tell apart. *)
Definition ascii_lower (c : ascii) : ascii :=
  let n := nat_of_ascii c in
  if ((65 <=? n) && (n <=? 90))%nat then ascii_of_nat (n + 32) else c.

Fixpoint str_lower (s : string) : string :=
  match s with
  | EmptyString => EmptyString
  | String c s' => String (ascii_lower c) (str_lower s')
  end.

(** [before, _, after = s.partition(sep)] for a one-character [sep]: what
    stands before the first [sep] and what stands after it; the whole of
    [s] and the empty string when [s] holds no [sep]. *)
Fixpoint str_partition (sep : ascii) (s : string) : string * string :=
  match s with
  | EmptyString => (EmptyString, EmptyString)
  | String c s' =>
      if Ascii.eqb c sep then (EmptyString, s')
      else let (before, after) := str_partition sep s' in
           (String c before, after)
  end.

(** fastapi.security.utils: the scheme and the parameter of an
    Authorization header value. *)
Definition get_authorization_scheme_param
  (authorization_header_value : option string) : string * string :=
  if negb (truthy authorization_header_value)
  then (EmptyString, EmptyString)
  else match authorization_header_value with
       | Some value => str_partition " "%char value
       | None => (EmptyString, EmptyString)
       end.

(** [l[0]]. *)
Definition first_item {A : Type} (l : list A) : Outcome A :=
  match l with
  | x :: _ => Return x
  | [] => Raise (IndexError "list index out of range")
  end.

(** The f-string of [chat], with [context] in its hole. *)
Definition chat_prompt (context : string) : string :=
  (nl ++
  "             You are an AI assistant providing helpful advice. You are given the following extracted parts of a long document and a question. Provide a conversational answer based on the context provided." ++ nl ++
  "If you can't find the answer in the context below, just say " ++ dquote ++ "Hmm, I'm not sure." ++ dquote ++ " Don't try to make up an answer." ++ nl ++
  "You will reply to me in the same language as the language used in user's question" ++ nl ++
  "If the question is not related to the context, politely respond that you are tuned to only answer questions that are related to the context." ++ nl ++
  "        =========" ++ nl ++
  "        " ++ context ++ nl ++
  "        =========" ++ nl ++
  "              ")%string.

(** ** Responses *)

Inductive Response (float : Type) : Type :=
| UpsertOk (r : UpsertResponse.t)
| QueryOk (r : QueryResponse.t float)
| ChatOk (completion : string)
| ListOk (indexes : list string)
| DeleteOk (r : DeleteResponse.t).
Arguments UpsertOk {float}.
Arguments QueryOk {float}.
Arguments ChatOk {float}.
Arguments ListOk {float}.
Arguments DeleteOk {float}.

Inductive Request : Type :=
| PostUpsertFile (file : UploadFile.t) (metadata : option string)
| PostUpsert (request : UpsertRequest.t)
| PostQuery (request : QueryRequest.t)
| PostChat (requests : ChatRequest.t)
| GetListIndex
| PostSubQuery (request : QueryRequest.t)
| DeleteDelete (request : DeleteRequest.t).

(** ** The handlers of server/main.py *)

Section Handlers.
Variables float Backend : Type.

(** [BEARER_TOKEN = os.environ.get("BEARER_TOKEN")], asserted present. *)
Variable BEARER_TOKEN : string.

(** [DocumentMetadata.parse_raw] (models/models.py). *)
Variable parse_raw : string -> Outcome DocumentMetadata.t.

(** [get_document_from_file] (services/file.py). *)
Variable get_document_from_file :
  UploadFile.t -> DocumentMetadata.t -> Outcome Document.t.

(** [get_chat_completion] (services/openai.py). *)
Variable get_chat_completion : list Message.t -> Outcome string.

(** [pinecone.list_indexes]. *)
Variable list_indexes : Outcome (list string).

(** [get_datastore] (datastore/factory.py): builds the handle of the
    configured backend, possibly initialising the index behind it. *)
Variable get_datastore :
  Backend -> Outcome (DataStore.t float Backend) * Backend.

(** [str(e)]. *)
Variable str : Exception -> string.

Local Abbreviation M := (M float Backend).
Local Open Scope py_scope.

(** [bearer_scheme = HTTPBearer()] (line 35), the dependency the parameter
    of [validate_token] is drawn from (line 40).  [HTTPBearer] is fastapi's
    class (fastapi/security/http.py); built without arguments it raises on a
    header it does not accept.  [authorization] is
    [request.headers.get("Authorization")]. *)
Definition bearer_scheme (authorization : option string)
  : M HTTPAuthorizationCredentials.t :=
  let (scheme, credentials) := get_authorization_scheme_param authorization in
  if negb (truthy authorization && truthy scheme && truthy credentials)
  then raise (HTTPException 403 "Not authenticated")
  else if negb (str_lower scheme =? "bearer")%string
  then raise (HTTPException 403 "Invalid authentication credentials")
  else ret (HTTPAuthorizationCredentials.mk scheme credentials).

Definition validate_token (credentials : HTTPAuthorizationCredentials.t)
  : M HTTPAuthorizationCredentials.t :=
  print [PyCredentials credentials] ;;
  print [PyCredentials credentials] ;;
  if negb (HTTPAuthorizationCredentials.scheme credentials =? "Bearer")%string
     || negb (HTTPAuthorizationCredentials.credentials credentials
              =? BEARER_TOKEN)%string
  then raise (HTTPException 401 "Invalid or missing token")
  else ret credentials.

(** [await datastore.upsert(documents)] and its two siblings: the global is
    read, then the coroutine of the handle runs. *)
Definition datastore_upsert (documents : list Document.t) : M (list string) :=
  ds <- global_datastore ;;
  emit (DatastoreUpsert documents) ;;
  on_backend (DataStore.upsert ds documents).

Definition datastore_query (queries : list Query.t)
  : M (list (QueryResult.t float)) :=
  ds <- global_datastore ;;
  emit (DatastoreQuery queries) ;;
  on_backend (DataStore.query ds queries).

Definition datastore_delete (ids : option (list string))
  (filter : option DocumentMetadataFilter.t) (delete_all : option bool)
  : M bool :=
  ds <- global_datastore ;;
  emit (DatastoreDelete ids filter delete_all) ;;
  on_backend (DataStore.delete ds ids filter delete_all).

(** [DocumentMetadata(source=Source.file)]. *)
Definition default_metadata : DocumentMetadata.t :=
  DocumentMetadata.mk (Some Source.file) None None None None.

(** Lines 70-77 of [upsert_file]: the metadata form field, parsed under a
    bare [except]. *)
Definition metadata_obj_of (metadata : option string) : M DocumentMetadata.t :=
  try_except
    (if truthy metadata
     then match metadata with
          | Some raw => lift (parse_raw raw)
          | None => ret default_metadata
          end
     else ret default_metadata)
    (fun _ => ret default_metadata).

(** Lines 79-86 of [upsert_file]. *)
Definition upsert_document (file : UploadFile.t)
  (metadata_obj : DocumentMetadata.t) : M UpsertResponse.t :=
  document <- (emit (GetDocumentFromFile file metadata_obj) ;;
               lift (get_document_from_file file metadata_obj)) ;;
  try_except
    (ids <- datastore_upsert [document] ;;
     ret (UpsertResponse.mk ids))
    (fun e =>
       print [PyStr "Error:"; PyExc e] ;;
       raise (HTTPException 500 ("str(" ++ str e ++ ")")%string)).

Definition upsert_file (file : UploadFile.t) (metadata : option string)
  : M UpsertResponse.t :=
  metadata_obj <- metadata_obj_of metadata ;;
  upsert_document file metadata_obj.

Definition upsert (request : UpsertRequest.t) : M UpsertResponse.t :=
  try_except
    (ids <- datastore_upsert (UpsertRequest.documents request) ;;
     ret (UpsertResponse.mk ids))
    (fun e =>
       print [PyStr "Error:"; PyExc e] ;;
       raise (HTTPException 500 "Internal Service Error")).

Definition query_main (request : QueryRequest.t) : M (QueryResponse.t float) :=
  try_except
    (results <- datastore_query (QueryRequest.queries request) ;;
     ret (QueryResponse.mk results))
    (fun e =>
       print [PyStr "Error:"; PyExc e] ;;
       print_exc e ;;
       raise (HTTPException 500 "Internal Service Error")).

Definition chat (requests : ChatRequest.t) : M string :=
  if negb (truthy (ChatRequest.content requests))
  then raise (HTTPException 400 "One of content is required")
  else
    try_except
      (let query := Query.mk (ChatRequest.content requests) None 3 in
       let queries := [query] in
       results <- datastore_query queries ;;
       results_0 <- lift (first_item results) ;;
       let context :=
         str_join nl
           (map DocumentChunkWithScore.text (QueryResult.results results_0)) in
       let context :=
         str_replace "010"%char " ----------------------------- " context in
       let prompt := chat_prompt context in
       let messages :=
         [ Message.mk "system" prompt;
           Message.mk "user" (ChatRequest.content requests) ] in
       print [PyMessages messages] ;;
       completion <- (emit (GetChatCompletion messages) ;;
                      lift (get_chat_completion messages)) ;;
       ret completion)
      (fun e =>
         print [PyStr "Error:"; PyExc e] ;;
         print_exc e ;;
         raise (HTTPException 500 "Internal Service Error")).

Definition list_index : M (list string) :=
  try_except
    (indexes <- (emit ListIndexes ;; lift list_indexes) ;;
     ret indexes)
    (fun e =>
       print [PyStr "Error:"; PyExc e] ;;
       raise (HTTPException 500 "Internal Service Error")).

(** The [/query] route of [sub_app]. *)
Definition query (request : QueryRequest.t) : M (QueryResponse.t float) :=
  try_except
    (results <- datastore_query (QueryRequest.queries request) ;;
     ret (QueryResponse.mk results))
    (fun e =>
       print [PyStr "Error:"; PyExc e] ;;
       raise (HTTPException 500 "Internal Service Error")).

Definition delete (request : DeleteRequest.t) : M DeleteResponse.t :=
  if negb (truthy (DeleteRequest.ids request)
           || truthy (DeleteRequest.filter request)
           || truthy (DeleteRequest.delete_all request))
  then raise (HTTPException 400 "One of ids, filter, or delete_all is required")
  else
    try_except
      (success <- datastore_delete (DeleteRequest.ids request)
                                   (DeleteRequest.filter request)
                                   (DeleteRequest.delete_all request) ;;
       ret (DeleteResponse.mk success))
      (fun e =>
         print [PyStr "Error:"; PyExc e] ;;
         raise (HTTPException 500 "Internal Service Error")).

Definition startup : M unit :=
  ds <- (emit GetDatastore ;; on_backend get_datastore) ;;
  assign_datastore ds.

(** ** Routing

    [app] and [sub_app] are both built with
    [dependencies=[Depends(validate_token)]]: each of their routes resolves
    the dependency on the request's Authorization header ([bearer_scheme],
    then [validate_token] on the credentials it returns), then runs the
    handler. *)

(** [Depends(validate_token)]. *)
Definition Depends_validate_token (authorization : option string)
  : M HTTPAuthorizationCredentials.t :=
  credentials <- bearer_scheme authorization ;;
  validate_token credentials.

Definition route (r : Request) : M (Response float) :=
  match r with
  | PostUpsertFile file metadata =>
      x <- upsert_file file metadata ;; ret (UpsertOk x)
  | PostUpsert request => x <- upsert request ;; ret (UpsertOk x)
  | PostQuery request => x <- query_main request ;; ret (QueryOk x)
  | PostChat requests => x <- chat requests ;; ret (ChatOk x)
  | GetListIndex => x <- list_index ;; ret (ListOk x)
  | PostSubQuery request => x <- query request ;; ret (QueryOk x)
  | DeleteDelete request => x <- delete request ;; ret (DeleteOk x)
  end.

Definition serve (authorization : option string) (r : Request)
  : M (Response float) :=
  Depends_validate_token authorization ;; route r.

(** The requests of a process, one after the other, each with its outcome. *)
Fixpoint serve_all (rs : list (option string * Request))
  (w : World float Backend)
  : list (Outcome (Response float)) * World float Backend :=
  match rs with
  | [] => ([], w)
  | (authorization, r) :: rs' =>
      let (o, w') := serve authorization r w in
      let (os, w'') := serve_all rs' w' in
      (o :: os, w'')
  end.

(** The process at import time: the name [datastore] is not bound yet. *)
Definition boot (b : Backend) : World float Backend := mkWorld None b [].

(** A process: the startup hook, then the requests.  When the hook raises
    the application does not start and no request is served. *)
Definition run (b : Backend)
  (rs : list (option string * Request))
  : Outcome (list (Outcome (Response float))) * World float Backend :=
  match startup (boot b) with
  | (Return _, w) => let (os, w') := serve_all rs w in (Return os, w')
  | (Raise e, w) => (Raise e, w)
  end.

End Handlers.

Arguments bearer_scheme {float Backend} authorization _.
Arguments validate_token {float Backend} BEARER_TOKEN credentials _.
Arguments Depends_validate_token {float Backend} BEARER_TOKEN authorization _.
Arguments datastore_upsert {float Backend} documents _.
Arguments datastore_query {float Backend} queries _.
Arguments datastore_delete {float Backend} ids filter delete_all _.
Arguments metadata_obj_of {float Backend} parse_raw metadata _.
Arguments upsert_document {float Backend} get_document_from_file str
  file metadata_obj _.
Arguments upsert_file {float Backend} parse_raw get_document_from_file str
  file metadata _.
Arguments upsert {float Backend} request _.
Arguments query_main {float Backend} request _.
Arguments chat {float Backend} get_chat_completion requests _.
Arguments list_index {float Backend} list_indexes _.
Arguments query {float Backend} request _.
Arguments delete {float Backend} request _.
Arguments startup {float Backend} get_datastore _.
Arguments route {float Backend} parse_raw get_document_from_file
  get_chat_completion list_indexes str r _.
Arguments serve {float Backend} BEARER_TOKEN parse_raw get_document_from_file
  get_chat_completion list_indexes str authorization r _.
Arguments serve_all {float Backend} BEARER_TOKEN parse_raw
  get_document_from_file get_chat_completion list_indexes str rs w.
Arguments boot {float Backend} b.
Arguments run {float Backend} BEARER_TOKEN parse_raw get_document_from_file
  get_chat_completion list_indexes get_datastore str b rs.

(** ** Vocabulary of the properties *)

(** None of [ids], [filter] and [delete_all] is set. *)
Definition no_deletion_mode (request : DeleteRequest.t) : Prop :=
  (DeleteRequest.ids request = None \/ DeleteRequest.ids request = Some [])
  /\ DeleteRequest.filter request = None
  /\ (DeleteRequest.delete_all request = None
      \/ DeleteRequest.delete_all request = Some false).

(** The metadata form field is absent, or does not parse. *)
Definition metadata_unusable (parse_raw : string -> Outcome DocumentMetadata.t)
  (metadata : option string) : Prop :=
  metadata = None
  \/ exists raw e, metadata = Some raw /\ parse_raw raw = Raise e.

(** The world after the two [print(credentials)] of [validate_token]. *)
Definition after_validation {float Backend : Type}
  (credentials : HTTPAuthorizationCredentials.t) (w : World float Backend)
  : World float Backend :=
  mkWorld (datastore w) (backend w)
    (trace w ++ [Print [PyCredentials credentials];
                 Print [PyCredentials credentials]]).

(** Selections from a trace. *)
Definition datastore_calls (evs : list Event) : list Event :=
  List.filter is_datastore_call evs.

Definition assignments (evs : list Event) : list Event :=
  List.filter is_assignment evs.

Definition without_tracebacks (evs : list Event) : list Event :=
  List.filter (fun ev => negb (is_traceback ev)) evs.

(** A computation that leaves the binding of the global [datastore] alone:
    it ends with the binding it started with, and what it adds to the trace
    holds no assignment. *)
Definition keeps_datastore {float Backend A : Type} (m : M float Backend A)
  : Prop :=
  forall w,
    datastore (snd (m w)) = datastore w
    /\ exists evs, trace (snd (m w)) = trace w ++ evs /\ assignments evs = [].

(** [c in s] for a one-character [c]. *)
Fixpoint str_mem (c : ascii) (s : string) : bool :=
  match s with
  | EmptyString => false
  | String c' s' => Ascii.eqb c' c || str_mem c s'
  end.

(** Lines 139-140 of [chat]: the context drawn from the texts of the first
    result's chunks. *)
Definition chat_context (texts : list string) : string :=
  str_replace "010"%char " ----------------------------- " (str_join nl texts).

(** Lines 150-153 of [chat]: the messages sent to the completion provider. *)
Definition chat_messages (content : string) (texts : list string)
  : list Message.t :=
  [ Message.mk "system" (chat_prompt (chat_context texts));
    Message.mk "user" content ].

(** The datastore call a route may make: the one its handler is written to
    make, on the arguments of the request. *)
Definition route_call
  (get_document_from_file :
     UploadFile.t -> DocumentMetadata.t -> Outcome Document.t)
  (r : Request) (ev : Event) : Prop :=
  match r with
  | PostUpsertFile file _ =>
      exists metadata_obj document,
        get_document_from_file file metadata_obj = Return document
        /\ ev = DatastoreUpsert [document]
  | PostUpsert request => ev = DatastoreUpsert (UpsertRequest.documents request)
  | PostQuery request | PostSubQuery request =>
      ev = DatastoreQuery (QueryRequest.queries request)
  | PostChat requests =>
      ev = DatastoreQuery [Query.mk (ChatRequest.content requests) None 3]
  | GetListIndex => False
  | DeleteDelete request =>
      ev = DatastoreDelete (DeleteRequest.ids request)
             (DeleteRequest.filter request) (DeleteRequest.delete_all request)
  end.

(** The errors the handlers raise themselves. *)
Definition handler_error (e : Exception) : Prop :=
  e = HTTPException 400 "One of content is required"
  \/ e = HTTPException 400 "One of ids, filter, or delete_all is required"
  \/ e = HTTPException 500 "Internal Service Error".

(** ** A small in-memory backend, to run the handlers on concrete requests *)

Module Fixture.

Definition Backend : Type := list Document.t.

Definition document_id (d : Document.t) : string :=
  match Document.id d with Some i => i | None => "generated-id" end.

Definition chunk_of (d : Document.t) : DocumentChunkWithScore.t Z :=
  DocumentChunkWithScore.mk
    (Some (document_id d ++ "_0")%string) (Document.text d)
    (match Document.metadata d with
     | Some md => md
     | None => DocumentMetadata.mk None None None None None
     end)
    (Some (document_id d)) 1.

Definition memory : DataStore.t Z Backend :=
  DataStore.mk
    (fun documents b => (Return (map document_id documents), b ++ documents))
    (fun queries b =>
       (Return (map (fun q => QueryResult.mk (Query.query q) (map chunk_of b))
                    queries), b))
    (fun ids filter delete_all b =>
       (Return true,
        if truthy delete_all then []
        else List.filter
               (fun d => negb (existsb (String.eqb (document_id d))
                                 (match ids with Some l => l | None => [] end)))
               b)).

(** A backend whose every call raises. *)
Definition broken : DataStore.t Z Backend :=
  DataStore.mk
    (fun _ b => (Raise (Error "BackendError" "index unavailable"), b))
    (fun _ b => (Raise (Error "BackendError" "index unavailable"), b))
    (fun _ _ _ b => (Raise (Error "BackendError" "index unavailable"), b)).

Definition token : string := "s3cret".

Definition good_credentials : HTTPAuthorizationCredentials.t :=
  HTTPAuthorizationCredentials.mk "Bearer" "s3cret".

Definition bad_credentials : HTTPAuthorizationCredentials.t :=
  HTTPAuthorizationCredentials.mk "Bearer" "guess".

(** Authorization header values. *)
Definition good_header : option string := Some "Bearer s3cret"%string.

Definition bad_header : option string := Some "Bearer guess"%string.

Definition lowercase_header : option string := Some "bearer s3cret"%string.

Definition basic_header : option string := Some "Basic s3cret"%string.

Definition parse_raw (raw : string) : Outcome DocumentMetadata.t :=
  if (raw =? "{}")%string
  then Return (DocumentMetadata.mk None None None None None)
  else Raise (Error "ValidationError" "1 validation error for DocumentMetadata").

Definition get_document_from_file (file : UploadFile.t)
  (metadata : DocumentMetadata.t) : Outcome Document.t :=
  Return (Document.mk None (UploadFile.body file) (Some metadata)).

Definition get_chat_completion (messages : list Message.t) : Outcome string :=
  Return "Hmm, I'm not sure."%string.

Definition list_indexes : Outcome (list string) := Return ["index"%string].

Definition get_datastore (b : Backend)
  : Outcome (DataStore.t Z Backend) * Backend :=
  (Return memory, b).

Definition str (e : Exception) : string :=
  match e with
  | HTTPException _ detail => detail
  | NameError msg => msg
  | IndexError msg => msg
  | Error _ msg => msg
  end.

Definition cat : Document.t :=
  Document.mk (Some "1"%string)
    "A cat sat on a mat. A dog ran in the park."
    (Some (DocumentMetadata.mk (Some Source.file) None None None None)).

Definition notes : UploadFile.t :=
  UploadFile.mk (Some "notes.txt"%string) (Some "text/plain"%string)
    "remember the milk".

(** A process that has started on the in-memory backend, holding [b]. *)
Definition started (b : Backend) : World Z Backend := mkWorld (Some memory) b [].

(** A process whose backend is out of order. *)
Definition degraded : World Z Backend := mkWorld (Some broken) [] [].

(** A backend that knows no document: every query comes back with an empty
    list of results. *)
Definition blank : DataStore.t Z Backend :=
  DataStore.mk
    (fun documents b => (Return [], b))
    (fun queries b => (Return [], b))
    (fun ids filter delete_all b => (Return false, b)).

(** An extractor that cannot read the file. *)
Definition unreadable (file : UploadFile.t) (metadata : DocumentMetadata.t)
  : Outcome Document.t :=
  Raise (Error "ValueError" "Unsupported file type").

(** A completion provider that is out of order. *)
Definition no_completion (messages : list Message.t) : Outcome string :=
  Raise (Error "APIError" "service unavailable").

(** A configuration that names no known backend. *)
Definition no_datastore (b : Backend)
  : Outcome (DataStore.t Z Backend) * Backend :=
  (Raise (Error "ValueError" "Unsupported vector database"), b).

Definition dog : Document.t :=
  Document.mk (Some "2"%string)
    (String "A" (String "010"%char "dog"))
    (Some (DocumentMetadata.mk (Some Source.chat) None None None
             (Some "rex"%string))).

End Fixture.


(** * Properties *)

(** Unfolding the monad: a handler applied to a world reduces to a
    case analysis on what its collaborators answer. *)
Ltac unfold_monad :=
  unfold bind, try_except, ret, raise, lift, print, print_exc, emit,
    on_backend, global_datastore, assign_datastore in *.

Ltac step_handler :=
  unfold_monad; cbn [fst snd datastore backend trace] in *.

Section DeleteProperties.
Context {float Backend : Type}.
Implicit Types (w : World float Backend) (request : DeleteRequest.t).

Lemma no_deletion_mode_guard request :
  no_deletion_mode request ->
  truthy (DeleteRequest.ids request)
  || truthy (DeleteRequest.filter request)
  || truthy (DeleteRequest.delete_all request) = false.
Proof.
  destruct request as [ids flt del_all].
  intros (Hids & Hfilter & Hall); cbn in *.
  destruct Hids, Hall; subst; reflexivity.
Qed.

(** C1.  A delete request in which none of [ids], [filter] and [delete_all]
    is set ([ids] absent or the empty list, [filter] absent, [delete_all]
    absent or false) fails: the handler raises its invalid-request error,
    [HTTPException] with status 400 and the detail "One of ids, filter, or
    delete_all is required". *)
Theorem delete_without_mode_fails request w :
  no_deletion_mode request ->
  fst (delete request w)
  = Raise (HTTPException 400 "One of ids, filter, or delete_all is required").
Proof.
  intros Hnone. unfold delete.
  rewrite (no_deletion_mode_guard request Hnone). reflexivity.
Qed.

(** C2.  A delete request rejected for having no deletion mode set never
    reaches the backend: the process state after the call is the state
    before it, so the state behind the handle is unchanged and the trace
    holds no further datastore call. *)
Theorem rejected_delete_leaves_backend_alone request w :
  no_deletion_mode request ->
  snd (delete request w) = w
  /\ backend (snd (delete request w)) = backend w
  /\ datastore_calls (trace (snd (delete request w)))
     = datastore_calls (trace w).
Proof.
  intros Hnone. unfold delete.
  rewrite (no_deletion_mode_guard request Hnone). cbn. auto.
Qed.

End DeleteProperties.

(** The request [delete(ids=[], filter=None, delete_all=None)]. *)
Lemma delete_without_mode_fails_witness :
  no_deletion_mode (DeleteRequest.mk (Some []) None None)
  /\ fst (delete (DeleteRequest.mk (Some []) None None)
            (Fixture.started [Fixture.cat]))
     = Raise (HTTPException 400 "One of ids, filter, or delete_all is required").
Proof.
  assert (H : no_deletion_mode (DeleteRequest.mk (Some []) None None)).
  { unfold no_deletion_mode; simpl; auto. }
  split; [exact H | exact (delete_without_mode_fails _ _ H)].
Defined.

Lemma rejected_delete_leaves_backend_alone_witness :
  no_deletion_mode (DeleteRequest.mk None None (Some false))
  /\ snd (delete (DeleteRequest.mk None None (Some false))
            (Fixture.started [Fixture.cat]))
     = Fixture.started [Fixture.cat].
Proof.
  assert (H : no_deletion_mode (DeleteRequest.mk None None (Some false))).
  { unfold no_deletion_mode; simpl; auto. }
  split;
    [exact H
    | exact (proj1 (rejected_delete_leaves_backend_alone _
                      (Fixture.started [Fixture.cat]) H))].
Defined.

Section UpsertQueryProperties.
Context {float Backend : Type}.
Implicit Types (w : World float Backend) (ds : DataStore.t float Backend).

(** C3.  When the datastore's [upsert] over the request's documents returns
    a list of ids, the handler returns a response holding exactly that list;
    the datastore is called once, on the request's documents. *)
Theorem upsert_returns_the_datastore_ids (request : UpsertRequest.t) w ds
  (ids : list string) (b' : Backend) :
  datastore w = Some ds ->
  DataStore.upsert ds (UpsertRequest.documents request) (backend w)
  = (Return ids, b') ->
  upsert request w
  = (Return (UpsertResponse.mk ids),
     mkWorld (datastore w) b'
       (trace w ++ [DatastoreUpsert (UpsertRequest.documents request)])).
Proof.
  intros Hds Hcall. destruct w as [g b t]; cbn in Hds, Hcall; subst g.
  unfold upsert, datastore_upsert. step_handler.
  rewrite Hcall. reflexivity.
Qed.


End UpsertQueryProperties.

Lemma upsert_returns_the_datastore_ids_witness :
  datastore (Fixture.started []) = Some Fixture.memory
  /\ upsert (UpsertRequest.mk [Fixture.cat]) (Fixture.started [])
     = (Return (UpsertResponse.mk ["1"%string]),
        mkWorld (Some Fixture.memory) [Fixture.cat]
          [DatastoreUpsert [Fixture.cat]]).
Proof.
  split; [reflexivity|].
  exact (upsert_returns_the_datastore_ids (UpsertRequest.mk [Fixture.cat])
           (Fixture.started []) Fixture.memory ["1"%string] [Fixture.cat]
           eq_refl eq_refl).
Defined.



Section UpsertFileProperties.
Context {float Backend : Type}.
Variable parse_raw : string -> Outcome DocumentMetadata.t.
Variable get_document_from_file :
  UploadFile.t -> DocumentMetadata.t -> Outcome Document.t.
Variable str : Exception -> string.
Implicit Types (w : World float Backend).

Lemma metadata_obj_of_unusable metadata w :
  metadata_unusable parse_raw metadata ->
  metadata_obj_of parse_raw metadata w = (Return default_metadata, w).
Proof.
  intros [-> | (raw & e & -> & Hparse)]; [reflexivity|].
  unfold metadata_obj_of. step_handler.
  destruct (truthy (Some raw)); [rewrite Hparse|]; reflexivity.
Qed.

(** C5.  When the metadata form field of an upsert-file request is absent,
    or does not parse as [DocumentMetadata], the handler goes on with the
    default metadata, whose source is [file], and the parse error is lost:
    parsing ends without an error and without an effect; the file is
    extracted with the default metadata; the extracted document is handed,
    alone, to the datastore's [upsert], and the ids the datastore returns
    are the response.  What can still fail is the extraction, whose
    exception leaves the handler as it is, and the datastore call, answered
    with status 500. *)
Theorem upsert_file_falls_back_to_default_metadata
  (file : UploadFile.t) (metadata : option string) w :
  metadata_unusable parse_raw metadata ->
  metadata_obj_of parse_raw metadata w = (Return default_metadata, w)
  /\ DocumentMetadata.source default_metadata = Some Source.file
  /\ upsert_file parse_raw get_document_from_file str file metadata w
     = upsert_document get_document_from_file str file default_metadata w
  /\ (forall e : Exception,
        get_document_from_file file default_metadata = Raise e ->
        upsert_file parse_raw get_document_from_file str file metadata w
        = (Raise e,
           mkWorld (datastore w) (backend w)
             (trace w ++ [GetDocumentFromFile file default_metadata])))
  /\ (forall (document : Document.t) (ds : DataStore.t float Backend),
        get_document_from_file file default_metadata = Return document ->
        datastore w = Some ds ->
        (forall (ids : list string) (b' : Backend),
           DataStore.upsert ds [document] (backend w) = (Return ids, b') ->
           upsert_file parse_raw get_document_from_file str file metadata w
           = (Return (UpsertResponse.mk ids),
              mkWorld (datastore w) b'
                (trace w ++ [GetDocumentFromFile file default_metadata;
                             DatastoreUpsert [document]])))
        /\ (forall (e : Exception) (b' : Backend),
              DataStore.upsert ds [document] (backend w) = (Raise e, b') ->
              upsert_file parse_raw get_document_from_file str file metadata w
              = (Raise (HTTPException 500 ("str(" ++ str e ++ ")")%string),
                 mkWorld (datastore w) b'
                   (trace w ++ [GetDocumentFromFile file default_metadata;
                                DatastoreUpsert [document];
                                Print [PyStr "Error:"; PyExc e]])))).
Proof.
  intros Hbad.
  assert (Hrun : upsert_file parse_raw get_document_from_file str
                   file metadata w
                 = upsert_document get_document_from_file str
                     file default_metadata w).
  { unfold upsert_file, bind at 1.
    rewrite (metadata_obj_of_unusable metadata w Hbad). reflexivity. }
  split; [exact (metadata_obj_of_unusable metadata w Hbad)|].
  split; [reflexivity|].
  split; [exact Hrun|].
  rewrite Hrun. clear Hrun. split.
  - intros e Hdoc. unfold upsert_document. step_handler.
    rewrite Hdoc. reflexivity.
  - intros document ds Hdoc Hds.
    destruct w as [g b t]; cbn in Hds; subst g.
    unfold upsert_document, datastore_upsert. step_handler. rewrite Hdoc.
    split.
    + intros ids b' Hcall. rewrite Hcall. cbn.
      rewrite <- !app_assoc. reflexivity.
    + intros e b' Hcall. rewrite Hcall. cbn.
      rewrite <- !app_assoc. reflexivity.
Qed.

End UpsertFileProperties.

Lemma upsert_file_falls_back_to_default_metadata_witness :
  let document :=
    Document.mk None "remember the milk" (Some default_metadata) in
  metadata_unusable Fixture.parse_raw (Some "{source: 7"%string)
  /\ Fixture.get_document_from_file Fixture.notes default_metadata
     = Return document
  /\ upsert_file Fixture.parse_raw Fixture.get_document_from_file Fixture.str
       Fixture.notes (Some "{source: 7"%string) (Fixture.started [])
     = (Return (UpsertResponse.mk ["generated-id"%string]),
        mkWorld (Some Fixture.memory) [document]
          [GetDocumentFromFile Fixture.notes default_metadata;
           DatastoreUpsert [document]]).
Proof.
  intros document.
  assert (H : metadata_unusable Fixture.parse_raw (Some "{source: 7"%string)).
  { right. eexists _, _. split; reflexivity. }
  split; [exact H|]. split; [reflexivity|].
  exact (proj1 (proj2 (proj2 (proj2 (proj2
           (upsert_file_falls_back_to_default_metadata Fixture.parse_raw
              Fixture.get_document_from_file Fixture.str Fixture.notes
              (Some "{source: 7"%string) (Fixture.started []) H))))
           document Fixture.memory eq_refl eq_refl)
           ["generated-id"%string] [document] eq_refl).
Defined.

Section ErrorMapping.
Context {float Backend : Type}.
Implicit Types (w : World float Backend) (ds : DataStore.t float Backend).

Lemma deletion_mode_guard (request : DeleteRequest.t) :
  ~ no_deletion_mode request ->
  truthy (DeleteRequest.ids request)
  || truthy (DeleteRequest.filter request)
  || truthy (DeleteRequest.delete_all request) = true.
Proof.
  destruct request as [ids flt del_all]. unfold no_deletion_mode. cbn.
  intros Hset.
  destruct ids as [[|i ids]|], flt as [f|], del_all as [[|]|];
    try reflexivity; exfalso; apply Hset; auto.
Qed.

(** C6.  Whatever exception the datastore raises during the call made by the
    upsert, query or delete handler, the requester receives the same generic
    failure: [HTTPException] with status 500 and the detail "Internal
    Service Error", in which nothing of the exception is left. *)
Theorem datastore_exceptions_become_internal_service_error w ds
  (e : Exception) :
  datastore w = Some ds ->
  (forall (request : UpsertRequest.t) b',
     DataStore.upsert ds (UpsertRequest.documents request) (backend w)
     = (Raise e, b') ->
     fst (upsert request w)
     = Raise (HTTPException 500 "Internal Service Error"))
  /\ (forall (request : QueryRequest.t) b',
        DataStore.query ds (QueryRequest.queries request) (backend w)
        = (Raise e, b') ->
        fst (query_main request w)
        = Raise (HTTPException 500 "Internal Service Error")
        /\ fst (query request w)
           = Raise (HTTPException 500 "Internal Service Error"))
  /\ (forall (request : DeleteRequest.t) b',
        ~ no_deletion_mode request ->
        DataStore.delete ds (DeleteRequest.ids request)
          (DeleteRequest.filter request) (DeleteRequest.delete_all request)
          (backend w)
        = (Raise e, b') ->
        fst (delete request w)
        = Raise (HTTPException 500 "Internal Service Error")).
Proof.
  intros Hds. destruct w as [g b t]; cbn in Hds; subst g.
  split; [|split].
  - intros request b' Hcall. cbn in Hcall.
    unfold upsert, datastore_upsert. step_handler.
    rewrite Hcall. reflexivity.
  - intros request b' Hcall. cbn in Hcall.
    unfold query_main, query, datastore_query. step_handler.
    rewrite Hcall. split; reflexivity.
  - intros request b' Hset Hcall. cbn in Hcall.
    unfold delete. rewrite (deletion_mode_guard request Hset). cbn [negb].
    unfold datastore_delete. step_handler.
    rewrite Hcall. reflexivity.
Qed.

End ErrorMapping.

Lemma datastore_exceptions_become_internal_service_error_witness :
  datastore Fixture.degraded = Some Fixture.broken
  /\ fst (upsert (UpsertRequest.mk [Fixture.cat]) Fixture.degraded)
     = Raise (HTTPException 500 "Internal Service Error")
  /\ fst (query_main (QueryRequest.mk [Query.mk "dog" None 3]) Fixture.degraded)
     = Raise (HTTPException 500 "Internal Service Error")
  /\ ~ no_deletion_mode (DeleteRequest.mk (Some ["1"%string]) None None)
  /\ fst (delete (DeleteRequest.mk (Some ["1"%string]) None None)
            Fixture.degraded)
     = Raise (HTTPException 500 "Internal Service Error").
Proof.
  assert (Hset : ~ no_deletion_mode
                     (DeleteRequest.mk (Some ["1"%string]) None None)).
  { intros ([H | H] & _); discriminate H. }
  destruct (datastore_exceptions_become_internal_service_error
              Fixture.degraded Fixture.broken
              (Error "BackendError" "index unavailable") eq_refl)
    as (Hupsert & Hquery & Hdelete).
  split; [reflexivity|].
  split; [exact (Hupsert (UpsertRequest.mk [Fixture.cat]) [] eq_refl)|].
  split; [exact (proj1 (Hquery (QueryRequest.mk [Query.mk "dog" None 3]) []
                          eq_refl))|].
  split; [exact Hset|].
  exact (Hdelete (DeleteRequest.mk (Some ["1"%string]) None None) []
           Hset eq_refl).
Defined.

Section Authentication.
Context {float Backend : Type}.
Variable BEARER_TOKEN : string.
Variable parse_raw : string -> Outcome DocumentMetadata.t.
Variable get_document_from_file :
  UploadFile.t -> DocumentMetadata.t -> Outcome Document.t.
Variable get_chat_completion : list Message.t -> Outcome string.
Variable list_indexes : Outcome (list string).
Variable str : Exception -> string.
Implicit Types (w : World float Backend)
  (credentials : HTTPAuthorizationCredentials.t).

Lemma validate_token_run credentials w :
  validate_token BEARER_TOKEN credentials w
  = (if (HTTPAuthorizationCredentials.scheme credentials =? "Bearer")%string
        && (HTTPAuthorizationCredentials.credentials credentials
            =? BEARER_TOKEN)%string
     then Return credentials
     else Raise (HTTPException 401 "Invalid or missing token"),
     after_validation credentials w).
Proof.
  unfold validate_token, after_validation. step_handler.
  rewrite <- app_assoc. cbn [app].
  destruct (_ =? "Bearer")%string, (_ =? BEARER_TOKEN)%string; reflexivity.
Qed.

(** The header value "scheme credential" is split at its first space. *)
Lemma str_partition_at_first (sep : ascii) (before after : string) :
  str_mem sep before = false ->
  str_partition sep (before ++ String sep after) = (before, after).
Proof.
  induction before as [|c before IH]; cbn.
  - intros _. now rewrite Ascii.eqb_refl.
  - intros H. apply orb_false_iff in H as [Hc Hrest].
    rewrite Hc, (IH Hrest). reflexivity.
Qed.

Lemma str_partition_without (sep : ascii) (s : string) :
  str_mem sep s = false -> str_partition sep s = (s, EmptyString).
Proof.
  induction s as [|c s IH]; cbn; [reflexivity|].
  intros H. apply orb_false_iff in H as [Hc Hrest].
  rewrite Hc, (IH Hrest). reflexivity.
Qed.

Lemma get_authorization_scheme_param_of_header (scheme credentials : string) :
  scheme <> EmptyString ->
  str_mem " "%char scheme = false ->
  get_authorization_scheme_param
    (Some (scheme ++ String " "%char credentials)%string)
  = (scheme, credentials).
Proof.
  intros Hscheme Hword. unfold get_authorization_scheme_param.
  destruct scheme as [|c scheme]; [contradiction|]. cbn [append].
  cbn [truthy Truthy_Optional Truthy_str negb].
  exact (str_partition_at_first " "%char (String c scheme) credentials Hword).
Qed.

Lemma bearer_scheme_run (authorization : option string) w :
  bearer_scheme authorization w
  = (let scheme := fst (get_authorization_scheme_param authorization) in
     let credential := snd (get_authorization_scheme_param authorization) in
     if negb (truthy scheme && truthy credential)
     then Raise (HTTPException 403 "Not authenticated")
     else if negb (str_lower scheme =? "bearer")%string
          then Raise (HTTPException 403 "Invalid authentication credentials")
          else Return (HTTPAuthorizationCredentials.mk scheme credential),
     w).
Proof.
  unfold bearer_scheme.
  destruct authorization as [[|c value]|]; [reflexivity| |reflexivity].
  unfold get_authorization_scheme_param.
  cbn [truthy Truthy_Optional Truthy_str negb andb].
  destruct (str_partition " " (String c value)) as [scheme credential].
  cbn [fst snd].
  destruct (negb (truthy scheme && truthy credential)); [reflexivity|].
  destruct (negb (str_lower scheme =? "bearer")%string); reflexivity.
Qed.

Lemma Depends_validate_token_run (authorization : option string) w :
  Depends_validate_token BEARER_TOKEN authorization w
  = (let scheme := fst (get_authorization_scheme_param authorization) in
     let credential := snd (get_authorization_scheme_param authorization) in
     if negb (truthy scheme && truthy credential)
     then (Raise (HTTPException 403 "Not authenticated"), w)
     else if negb (str_lower scheme =? "bearer")%string
          then (Raise (HTTPException 403 "Invalid authentication credentials"),
                w)
          else validate_token BEARER_TOKEN
                 (HTTPAuthorizationCredentials.mk scheme credential) w).
Proof.
  unfold Depends_validate_token, bind at 1. rewrite bearer_scheme_run.
  cbn zeta.
  destruct (negb (truthy _ && truthy _)); [reflexivity|].
  destruct (negb (str_lower _ =? "bearer")%string); reflexivity.
Qed.

Lemma serve_after_the_dependency (authorization : option string)
  (r : Request) w :
  serve BEARER_TOKEN parse_raw get_document_from_file get_chat_completion
    list_indexes str authorization r w
  = match Depends_validate_token BEARER_TOKEN authorization w with
    | (Return _, w') =>
        route parse_raw get_document_from_file get_chat_completion
          list_indexes str r w'
    | (Raise e, w') => (Raise e, w')
    end.
Proof. reflexivity. Qed.

(** C7.  Credential validation runs before the handler of every route, in
    two steps.  The [HTTPBearer] dependency answers with status 403 a
    request whose Authorization header is missing or holds no scheme or no
    credential, and a request whose scheme is not "bearer" whatever the
    case of its letters; nothing else runs.  On a header it accepts,
    [validate_token] rejects the request with status 401 exactly when the
    scheme is not "Bearer" or the credential differs from the configured
    token.  A rejected request never reaches its handler; an accepted one is
    handed to it right after the validation. *)
Theorem validate_token_guards_every_route (authorization : option string) w :
  let scheme := fst (get_authorization_scheme_param authorization) in
  let credential := snd (get_authorization_scheme_param authorization) in
  let credentials := HTTPAuthorizationCredentials.mk scheme credential in
  let accepted :=
    scheme <> EmptyString /\ credential <> EmptyString
    /\ str_lower scheme = "bearer"%string in
  (scheme = EmptyString \/ credential = EmptyString ->
   Depends_validate_token BEARER_TOKEN authorization w
   = (Raise (HTTPException 403 "Not authenticated"), w))
  /\ (scheme <> EmptyString -> credential <> EmptyString ->
      str_lower scheme <> "bearer"%string ->
      Depends_validate_token BEARER_TOKEN authorization w
      = (Raise (HTTPException 403 "Invalid authentication credentials"), w))
  /\ (accepted ->
      scheme <> "Bearer"%string \/ credential <> BEARER_TOKEN ->
      Depends_validate_token BEARER_TOKEN authorization w
      = (Raise (HTTPException 401 "Invalid or missing token"),
         after_validation credentials w))
  /\ (accepted ->
      scheme = "Bearer"%string -> credential = BEARER_TOKEN ->
      Depends_validate_token BEARER_TOKEN authorization w
      = (Return credentials, after_validation credentials w))
  /\ (fst (Depends_validate_token BEARER_TOKEN authorization w)
      = Raise (HTTPException 401 "Invalid or missing token")
      <-> accepted
          /\ (scheme <> "Bearer"%string \/ credential <> BEARER_TOKEN))
  /\ (forall (r : Request) (e : Exception) w',
        Depends_validate_token BEARER_TOKEN authorization w = (Raise e, w') ->
        serve BEARER_TOKEN parse_raw get_document_from_file
          get_chat_completion list_indexes str authorization r w
        = (Raise e, w'))
  /\ (forall (r : Request) c w',
        Depends_validate_token BEARER_TOKEN authorization w = (Return c, w') ->
        serve BEARER_TOKEN parse_raw get_document_from_file
          get_chat_completion list_indexes str authorization r w
        = route parse_raw get_document_from_file get_chat_completion
            list_indexes str r w').
Proof.
  intros scheme credential credentials accepted.
  pose proof (Depends_validate_token_run authorization w) as Hrun.
  cbn zeta in Hrun. fold scheme credential in Hrun.
  rewrite (validate_token_run (HTTPAuthorizationCredentials.mk scheme credential)
             w) in Hrun.
  cbn [HTTPAuthorizationCredentials.scheme
         HTTPAuthorizationCredentials.credentials] in Hrun.
  fold credentials in Hrun.
  assert (Hroutes :
    (forall (r : Request) (e : Exception) w',
        Depends_validate_token BEARER_TOKEN authorization w = (Raise e, w') ->
        serve BEARER_TOKEN parse_raw get_document_from_file
          get_chat_completion list_indexes str authorization r w
        = (Raise e, w'))
    /\ (forall (r : Request) c w',
        Depends_validate_token BEARER_TOKEN authorization w = (Return c, w') ->
        serve BEARER_TOKEN parse_raw get_document_from_file
          get_chat_completion list_indexes str authorization r w
        = route parse_raw get_document_from_file get_chat_completion
            list_indexes str r w')).
  { split; intros r x w' Hdep; rewrite serve_after_the_dependency, Hdep;
      reflexivity. }
  assert (Hscheme : truthy scheme = false <-> scheme = EmptyString)
    by (destruct scheme; cbn; split; congruence).
  assert (Hcredential : truthy credential = false <-> credential = EmptyString)
    by (destruct credential; cbn; split; congruence).
  subst accepted.
  destruct (truthy scheme) eqn:Es; destruct (truthy credential) eqn:Ec;
    cbn [andb negb] in Hrun;
    try (repeat split;
         try exact (proj1 Hroutes); try exact (proj2 Hroutes);
         intros; rewrite ?Hrun in *; cbn [fst] in *;
         try reflexivity; try discriminate;
         solve [ intuition congruence ]).
  destruct (String.eqb_spec (str_lower scheme) "bearer") as [Hlow | Hlow];
    cbn [negb] in Hrun;
    [| repeat split;
       try exact (proj1 Hroutes); try exact (proj2 Hroutes);
       intros; rewrite ?Hrun in *; cbn [fst] in *;
       try reflexivity; try discriminate;
       solve [ intuition congruence ] ].
  destruct (String.eqb_spec scheme "Bearer") as [Hbearer | Hbearer];
    destruct (String.eqb_spec credential BEARER_TOKEN) as [Htoken | Htoken];
    cbn [andb] in Hrun;
    repeat split;
    try exact (proj1 Hroutes); try exact (proj2 Hroutes);
    intros; rewrite ?Hrun in *; cbn [fst] in *;
    try reflexivity; try discriminate;
    solve [ intuition congruence ].
Qed.

End Authentication.

Lemma validate_token_guards_every_route_witness :
  let r := PostUpsert (UpsertRequest.mk [Fixture.cat]) in
  let w := Fixture.started [] in
  let lowercase := HTTPAuthorizationCredentials.mk "bearer" "s3cret" in
  (HTTPAuthorizationCredentials.scheme lowercase <> "Bearer"%string
   /\ serve Fixture.token Fixture.parse_raw Fixture.get_document_from_file
        Fixture.get_chat_completion Fixture.list_indexes Fixture.str
        Fixture.lowercase_header r w
      = (Raise (HTTPException 401 "Invalid or missing token"),
         after_validation lowercase w))
  /\ serve Fixture.token Fixture.parse_raw Fixture.get_document_from_file
       Fixture.get_chat_completion Fixture.list_indexes Fixture.str
       Fixture.bad_header r w
     = (Raise (HTTPException 401 "Invalid or missing token"),
        after_validation Fixture.bad_credentials w)
  /\ serve Fixture.token Fixture.parse_raw Fixture.get_document_from_file
       Fixture.get_chat_completion Fixture.list_indexes Fixture.str
       Fixture.good_header r w
     = route Fixture.parse_raw Fixture.get_document_from_file
         Fixture.get_chat_completion Fixture.list_indexes Fixture.str
         r (after_validation Fixture.good_credentials w).
Proof.
  intros r w lowercase.
  pose (guard := fun authorization =>
    validate_token_guards_every_route Fixture.token Fixture.parse_raw
      Fixture.get_document_from_file Fixture.get_chat_completion
      Fixture.list_indexes Fixture.str authorization w).
  assert (Hlowercase : HTTPAuthorizationCredentials.scheme lowercase
                       <> "Bearer"%string) by discriminate.
  assert (Hguess : "guess"%string <> Fixture.token) by discriminate.
  assert (Hnonempty : forall c s, String c s <> EmptyString) by discriminate.
  split; [split; [exact Hlowercase|]|split].
  - destruct (guard Fixture.lowercase_header)
      as (_ & _ & Hrejected & _ & _ & Hstops & _).
    exact (Hstops r _ _
             (Hrejected (conj (Hnonempty _ _) (conj (Hnonempty _ _) eq_refl))
                (or_introl Hlowercase))).
  - destruct (guard Fixture.bad_header)
      as (_ & _ & Hrejected & _ & _ & Hstops & _).
    exact (Hstops r _ _
             (Hrejected (conj (Hnonempty _ _) (conj (Hnonempty _ _) eq_refl))
                (or_intror Hguess))).
  - destruct (guard Fixture.good_header)
      as (_ & _ & _ & Haccepted & _ & _ & Hruns).
    exact (Hruns r _ _
             (Haccepted (conj (Hnonempty _ _) (conj (Hnonempty _ _) eq_refl))
                eq_refl eq_refl)).
Defined.

(** A request whose scheme is "Basic" is not answered with status 401: the
    [HTTPBearer] dependency answers it with status 403 and
    [validate_token] does not run. *)
Lemma basic_scheme_is_answered_with_403 :
  fst (get_authorization_scheme_param Fixture.basic_header)
  <> "Bearer"%string
  /\ serve Fixture.token Fixture.parse_raw Fixture.get_document_from_file
       Fixture.get_chat_completion Fixture.list_indexes Fixture.str
       Fixture.basic_header (PostUpsert (UpsertRequest.mk [Fixture.cat]))
       (Fixture.started [])
     = (Raise (HTTPException 403 "Invalid authentication credentials"),
        Fixture.started [])
  /\ HTTPException 403 "Invalid authentication credentials"
     <> HTTPException 401 "Invalid or missing token".
Proof.
  split; [discriminate|]. split; [reflexivity | discriminate].
Qed.

Section QueryEndpoints.
Context {float Backend : Type}.
Implicit Types (w : World float Backend) (request : QueryRequest.t).

(** C9.  The [/query] route of the application and the [/query] route of
    the sub-application agree on every request: the same outcome (the same
    response, or the same error), the same state behind the handle, the
    same calls to the datastore, and the same trace once the traceback that
    [query_main] alone prints on an error is set aside. *)
Theorem query_endpoints_agree request w :
  fst (query_main request w) = fst (query request w)
  /\ datastore (snd (query_main request w)) = datastore (snd (query request w))
  /\ backend (snd (query_main request w)) = backend (snd (query request w))
  /\ datastore_calls (trace (snd (query_main request w)))
     = datastore_calls (trace (snd (query request w)))
  /\ without_tracebacks (trace (snd (query_main request w)))
     = without_tracebacks (trace (snd (query request w))).
Proof.
  destruct w as [[ds|] b t];
    unfold query_main, query, datastore_query; step_handler.
  - destruct (DataStore.query ds (QueryRequest.queries request) b)
      as [[results|e] b']; cbn.
    + repeat split.
    + unfold datastore_calls, without_tracebacks.
      rewrite !filter_app. cbn. rewrite !app_nil_r. repeat split.
  - unfold datastore_calls, without_tracebacks.
    rewrite !filter_app. cbn. rewrite !app_nil_r. repeat split.
Qed.

(** The one difference between the two routes: on an error [query_main]
    also prints the traceback. *)
Lemma query_main_prints_the_traceback request w :
  (exists e, fst (datastore_query (float:=float) (QueryRequest.queries request) w)
             = Raise e) ->
  trace (snd (query_main request w))
  <> trace (snd (query request w)).
Proof.
  intros [e He]. unfold query_main, query. step_handler.
  destruct (datastore_query (QueryRequest.queries request) w)
    as [[results|e'] w']; [discriminate He|]. cbn.
  rewrite <- app_assoc. cbn [app]. intros H.
  apply app_inv_head in H. discriminate H.
Qed.

End QueryEndpoints.

Section ChatProperties.
Context {float Backend : Type}.
Variable get_chat_completion : list Message.t -> Outcome string.
Implicit Types (w : World float Backend) (requests : ChatRequest.t).

(** C10.  A chat request with empty content fails with status 400 and
    leaves the process state as it was: the datastore is not called.  A
    chat request with non-empty content calls the datastore's [query] once,
    first of all, on the one query made of that content, no filter and
    [top_k] 3, and keeps the state the call leaves; nothing that follows is
    a datastore call.  What follows depends on the answer: an exception or
    an empty list ends in status 500 without a completion request; a list
    with a first result leads to the completion request, on the messages
    built from that result, whose completion is the response and whose
    failure ends in status 500. *)
Theorem chat_queries_the_datastore_once requests w :
  (ChatRequest.content requests = EmptyString ->
   chat get_chat_completion requests w
   = (Raise (HTTPException 400 "One of content is required"), w))
  /\ (ChatRequest.content requests <> EmptyString ->
      forall (ds : DataStore.t float Backend)
             (answer : Outcome (list (QueryResult.t float))) (b' : Backend),
        datastore w = Some ds ->
        DataStore.query ds [Query.mk (ChatRequest.content requests) None 3]
          (backend w) = (answer, b') ->
        exists (outcome : Outcome string) (later : list Event),
          chat get_chat_completion requests w
          = (outcome,
             mkWorld (datastore w) b'
               (trace w
                ++ DatastoreQuery
                     [Query.mk (ChatRequest.content requests) None 3]
                :: later))
          /\ datastore_calls later = []
          /\ match answer with
             | Raise e =>
                 outcome = Raise (HTTPException 500 "Internal Service Error")
                 /\ later = [Print [PyStr "Error:"; PyExc e]; PrintExc e]
             | Return [] =>
                 outcome = Raise (HTTPException 500 "Internal Service Error")
                 /\ later
                    = [Print [PyStr "Error:";
                              PyExc (IndexError "list index out of range")];
                       PrintExc (IndexError "list index out of range")]
             | Return (results_0 :: _) =>
                 let messages :=
                   chat_messages (ChatRequest.content requests)
                     (map DocumentChunkWithScore.text
                        (QueryResult.results results_0)) in
                 match get_chat_completion messages with
                 | Return completion =>
                     outcome = Return completion
                     /\ later = [Print [PyMessages messages];
                                 GetChatCompletion messages]
                 | Raise e =>
                     outcome
                     = Raise (HTTPException 500 "Internal Service Error")
                     /\ later = [Print [PyMessages messages];
                                 GetChatCompletion messages;
                                 Print [PyStr "Error:"; PyExc e]; PrintExc e]
                 end
             end).
Proof.
  split.
  - intros Hempty. unfold chat. rewrite Hempty. reflexivity.
  - intros Hcontent ds answer b' Hds Hcall.
    destruct w as [g b t]; cbn in Hds, Hcall; subst g.
    unfold chat, chat_messages, chat_context.
    destruct (ChatRequest.content requests) as [|c content];
      [contradiction|].
    cbn [truthy Truthy_str negb].
    unfold datastore_query. step_handler. rewrite Hcall.
    destruct answer as [[|results_0 rest]|e]; cbn.
    + rewrite <- !app_assoc. cbn [app].
      eexists _, _. split; [reflexivity|]. split; [reflexivity|]. split;
        reflexivity.
    + destruct (get_chat_completion _) as [completion|e]; cbn;
        rewrite <- !app_assoc; cbn [app];
        (eexists _, _; split; [reflexivity|]; split; [reflexivity|]; split;
         reflexivity).
    + rewrite <- !app_assoc. cbn [app].
      eexists _, _. split; [reflexivity|]. split; [reflexivity|]. split;
        reflexivity.
Qed.

End ChatProperties.

Lemma chat_queries_the_datastore_once_witness :
  let requests := ChatRequest.mk "Where did the dog go?" in
  let w := Fixture.started [Fixture.cat] in
  let query := Query.mk "Where did the dog go?" None 3 in
  let messages :=
    chat_messages "Where did the dog go?"
      ["A cat sat on a mat. A dog ran in the park."%string] in
  ChatRequest.content requests <> EmptyString
  /\ datastore w = Some Fixture.memory
  /\ chat Fixture.get_chat_completion requests w
     = (Return "Hmm, I'm not sure."%string,
        mkWorld (Some Fixture.memory) [Fixture.cat]
          [DatastoreQuery [query]; Print [PyMessages messages];
           GetChatCompletion messages]).
Proof.
  intros requests w query messages.
  assert (Hcontent : ChatRequest.content requests <> EmptyString)
    by discriminate.
  split; [exact Hcontent|]. split; [reflexivity|].
  destruct (proj2 (chat_queries_the_datastore_once
                     Fixture.get_chat_completion requests w)
              Hcontent Fixture.memory _ _ eq_refl eq_refl)
    as (outcome & later & Hrun & _ & Houtcome & Hlater).
  rewrite Hrun, Houtcome, Hlater. reflexivity.
Defined.

(** ** The global [datastore] *)

Create HintDb keeps discriminated.

Section KeepsDatastore.
Context {float Backend : Type}.
Implicit Types (w : World float Backend).

Lemma keeps_ret {A} (a : A) : keeps_datastore (float:=float) (Backend:=Backend) (ret a).
Proof. intros w. split; [reflexivity|]. exists []. cbn. now rewrite app_nil_r. Qed.

Lemma keeps_raise {A} (e : Exception) :
  keeps_datastore (float:=float) (Backend:=Backend) (A:=A) (raise e).
Proof. intros w. split; [reflexivity|]. exists []. cbn. now rewrite app_nil_r. Qed.

Lemma keeps_lift {A} (o : Outcome A) :
  keeps_datastore (float:=float) (Backend:=Backend) (lift o).
Proof. intros w. split; [reflexivity|]. exists []. cbn. now rewrite app_nil_r. Qed.

Lemma keeps_emit (ev : Event) :
  is_assignment ev = false ->
  keeps_datastore (float:=float) (Backend:=Backend) (emit ev).
Proof.
  intros Hev w. split; [reflexivity|]. exists [ev]. cbn.
  now rewrite Hev.
Qed.

Lemma keeps_print (args : list PyObject) :
  keeps_datastore (float:=float) (Backend:=Backend) (print args).
Proof. apply keeps_emit. reflexivity. Qed.

Lemma keeps_print_exc (e : Exception) :
  keeps_datastore (float:=float) (Backend:=Backend) (print_exc e).
Proof. apply keeps_emit. reflexivity. Qed.

Lemma keeps_on_backend {A} (f : Backend -> Outcome A * Backend) :
  keeps_datastore (float:=float) (on_backend f).
Proof.
  intros w. unfold on_backend. destruct (f (backend w)) as [o b].
  split; [reflexivity|]. exists []. cbn. now rewrite app_nil_r.
Qed.

Lemma keeps_global_datastore :
  keeps_datastore (float:=float) (Backend:=Backend) global_datastore.
Proof.
  intros [[ds|] b t]; cbn;
    (split; [reflexivity|]; exists []; cbn; now rewrite app_nil_r).
Qed.

Lemma keeps_bind {A B} (m : M float Backend A) (k : A -> M float Backend B) :
  keeps_datastore m -> (forall a, keeps_datastore (k a)) ->
  keeps_datastore (bind m k).
Proof.
  intros Hm Hk w. unfold bind.
  destruct (Hm w) as (Hg & evs & Ht & Hevs).
  destruct (m w) as [[a|e] w1]; cbn in *.
  - destruct (Hk a w1) as (Hg' & evs' & Ht' & Hevs').
    split; [congruence|]. exists (evs ++ evs'). split.
    + rewrite Ht', Ht. now rewrite app_assoc.
    + unfold assignments in *. rewrite filter_app, Hevs, Hevs'. reflexivity.
  - split; [assumption|]. exists evs. split; assumption.
Qed.

Lemma keeps_try_except {A} (m : M float Backend A)
  (h : Exception -> M float Backend A) :
  keeps_datastore m -> (forall e, keeps_datastore (h e)) ->
  keeps_datastore (try_except m h).
Proof.
  intros Hm Hh w. unfold try_except.
  destruct (Hm w) as (Hg & evs & Ht & Hevs).
  destruct (m w) as [[a|e] w1]; cbn in *.
  - split; [assumption|]. exists evs. split; assumption.
  - destruct (Hh e w1) as (Hg' & evs' & Ht' & Hevs').
    split; [congruence|]. exists (evs ++ evs'). split.
    + rewrite Ht', Ht. now rewrite app_assoc.
    + unfold assignments in *. rewrite filter_app, Hevs, Hevs'. reflexivity.
Qed.

End KeepsDatastore.

#[local] Hint Resolve keeps_ret keeps_raise keeps_lift keeps_print
  keeps_print_exc keeps_on_backend keeps_global_datastore : keeps.

Ltac keeps :=
  repeat first
    [ apply keeps_bind; [|intros ?]
    | apply keeps_try_except; [|intros ?]
    | apply keeps_emit; reflexivity
    | solve [auto with keeps]
    | match goal with
      | |- keeps_datastore (if ?c then _ else _) => destruct c
      | |- keeps_datastore (match ?o with Some _ => _ | None => _ end) =>
          destruct o
      end ].

Section Lifecycle.
Context {float Backend : Type}.
Variable BEARER_TOKEN : string.
Variable parse_raw : string -> Outcome DocumentMetadata.t.
Variable get_document_from_file :
  UploadFile.t -> DocumentMetadata.t -> Outcome Document.t.
Variable get_chat_completion : list Message.t -> Outcome string.
Variable list_indexes : Outcome (list string).
Variable get_datastore :
  Backend -> Outcome (DataStore.t float Backend) * Backend.
Variable str : Exception -> string.
Implicit Types (w : World float Backend).

Local Abbreviation app_route := (route (float:=float) (Backend:=Backend)
  parse_raw get_document_from_file get_chat_completion list_indexes str).
Local Abbreviation app_serve := (serve (float:=float) (Backend:=Backend)
  BEARER_TOKEN parse_raw get_document_from_file get_chat_completion
  list_indexes str).
Local Abbreviation app_serve_all := (serve_all (float:=float) (Backend:=Backend)
  BEARER_TOKEN parse_raw get_document_from_file get_chat_completion
  list_indexes str).
Local Abbreviation app_run := (run (float:=float) (Backend:=Backend)
  BEARER_TOKEN parse_raw get_document_from_file get_chat_completion
  list_indexes get_datastore str).

Lemma route_keeps_datastore (r : Request) : keeps_datastore (app_route r).
Proof.
  destruct r; unfold route.
  - unfold upsert_file, metadata_obj_of, upsert_document, datastore_upsert.
    keeps.
  - unfold upsert, datastore_upsert. keeps.
  - unfold query_main, datastore_query. keeps.
  - unfold chat, datastore_query. keeps.
  - unfold list_index. keeps.
  - unfold query, datastore_query. keeps.
  - unfold delete, datastore_delete. keeps.
Qed.

Lemma serve_keeps_datastore authorization (r : Request) :
  keeps_datastore (app_serve authorization r).
Proof.
  unfold serve, Depends_validate_token, bearer_scheme, validate_token.
  pose proof (route_keeps_datastore r).
  destruct (get_authorization_scheme_param authorization)
    as [scheme credentials].
  keeps.
Qed.

Lemma serve_all_keeps_datastore rs w :
  datastore (snd (app_serve_all rs w)) = datastore w
  /\ exists evs,
       trace (snd (app_serve_all rs w)) = trace w ++ evs /\ assignments evs = [].
Proof.
  revert w. induction rs as [|[authorization r] rs IH]; intros w; cbn.
  - split; [reflexivity|]. exists []. now rewrite app_nil_r.
  - destruct (serve_keeps_datastore authorization r w)
      as (Hg & evs & Ht & Hevs).
    destruct (app_serve authorization r w) as [o w1]. cbn in *.
    destruct (IH w1) as (Hg' & evs' & Ht' & Hevs').
    destruct (app_serve_all rs w1) as [os w2]. cbn in *.
    split; [congruence|]. exists (evs ++ evs'). split.
    + rewrite Ht', Ht. now rewrite app_assoc.
    + unfold assignments in *. rewrite filter_app, Hevs, Hevs'. reflexivity.
Qed.

Lemma startup_run (b : Backend) ds b1 :
  get_datastore b = (Return ds, b1) ->
  startup get_datastore (boot b)
  = (Return tt, mkWorld (Some ds) b1 [GetDatastore; AssignDatastore]).
Proof.
  intros Hget. unfold startup, boot. step_handler. rewrite Hget. reflexivity.
Qed.

(** C8.  The global [datastore] is bound once, by the startup hook, to the
    handle [get_datastore] returns; no route (upsert-file, upsert, query,
    chat, list-index, the sub-application's query, delete), with its
    credential check, rebinds it.  So in a process that has started,
    whatever requests it serves, the global still holds the handle chosen at
    startup and the trace holds exactly one assignment. *)
Theorem datastore_is_bound_once_at_startup :
  (forall authorization (r : Request),
     keeps_datastore (app_serve authorization r))
  /\ (forall (b : Backend) ds b1 rs,
        get_datastore b = (Return ds, b1) ->
        datastore (snd (app_run b rs)) = Some ds
        /\ assignments (trace (snd (app_run b rs))) = [AssignDatastore]).
Proof.
  split; [exact serve_keeps_datastore|].
  intros b ds b1 rs Hget. unfold run.
  rewrite (startup_run b ds b1 Hget).
  destruct (serve_all_keeps_datastore rs
              (mkWorld (Some ds) b1 [GetDatastore; AssignDatastore]))
    as (Hg & evs & Ht & Hevs).
  destruct (app_serve_all rs _) as [os w']. cbn in *.
  split; [exact Hg|].
  rewrite Ht. unfold assignments in *. cbn. rewrite Hevs. reflexivity.
Qed.

End Lifecycle.

Lemma datastore_is_bound_once_at_startup_witness :
  let rs :=
    [ (Fixture.good_header, PostUpsert (UpsertRequest.mk [Fixture.cat]));
      (Fixture.bad_header, GetListIndex);
      (Fixture.good_header,
       DeleteDelete (DeleteRequest.mk None None (Some true))) ] in
  let w :=
    snd (run Fixture.token Fixture.parse_raw Fixture.get_document_from_file
           Fixture.get_chat_completion Fixture.list_indexes
           Fixture.get_datastore Fixture.str [] rs) in
  Fixture.get_datastore [] = (Return Fixture.memory, [])
  /\ datastore w = Some Fixture.memory
  /\ assignments (trace w) = [AssignDatastore].
Proof.
  intros rs w. split; [reflexivity|].
  exact (proj2 (datastore_is_bound_once_at_startup Fixture.token
                  Fixture.parse_raw Fixture.get_document_from_file
                  Fixture.get_chat_completion Fixture.list_indexes
                  Fixture.get_datastore Fixture.str)
           [] Fixture.memory [] rs eq_refl).
Defined.

(** ** The other callers of the datastore

    [upsert_file] and [chat] call the datastore too.  [chat] answers a
    datastore exception as the three handlers above do; [upsert_file] puts
    the text of the exception in the detail of its response. *)

Section OtherCallers.
Context {float Backend : Type}.
Variable get_document_from_file :
  UploadFile.t -> DocumentMetadata.t -> Outcome Document.t.
Variable get_chat_completion : list Message.t -> Outcome string.
Variable str : Exception -> string.
Implicit Types (w : World float Backend) (ds : DataStore.t float Backend).

Lemma upsert_document_reports_the_exception_text
  (file : UploadFile.t) (metadata_obj : DocumentMetadata.t)
  (document : Document.t) w ds (e : Exception) (b' : Backend) :
  datastore w = Some ds ->
  get_document_from_file file metadata_obj = Return document ->
  DataStore.upsert ds [document] (backend w) = (Raise e, b') ->
  fst (upsert_document get_document_from_file str file metadata_obj w)
  = Raise (HTTPException 500 ("str(" ++ str e ++ ")")%string).
Proof.
  intros Hds Hdoc Hcall. destruct w as [g b t]; cbn in Hds, Hcall; subst g.
  unfold upsert_document, datastore_upsert. step_handler.
  rewrite Hdoc, Hcall. reflexivity.
Qed.

Lemma chat_hides_datastore_exceptions (requests : ChatRequest.t) w ds
  (e : Exception) (b' : Backend) :
  ChatRequest.content requests <> EmptyString ->
  datastore w = Some ds ->
  DataStore.query ds [Query.mk (ChatRequest.content requests) None 3]
    (backend w) = (Raise e, b') ->
  fst (chat get_chat_completion requests w)
  = Raise (HTTPException 500 "Internal Service Error").
Proof.
  intros Hcontent Hds Hcall.
  destruct w as [g b t]; cbn in Hds, Hcall; subst g.
  unfold chat.
  destruct (ChatRequest.content requests) as [|c content]; [contradiction|].
  cbn [truthy Truthy_str negb].
  unfold datastore_query. step_handler.
  rewrite Hcall. reflexivity.
Qed.

End OtherCallers.

(** * Further properties of the handlers *)

(** ** Strings *)

Lemma str_append_assoc (a b c : string) :
  ((a ++ b) ++ c = a ++ (b ++ c))%string.
Proof. induction a as [|x a IH]; cbn; [reflexivity | now rewrite IH]. Qed.

Lemma str_append_nil_r (a : string) : (a ++ EmptyString = a)%string.
Proof. induction a as [|x a IH]; cbn; [reflexivity | now rewrite IH]. Qed.

Lemma str_replace_app (old : ascii) (new a b : string) :
  str_replace old new (a ++ b)
  = (str_replace old new a ++ str_replace old new b)%string.
Proof.
  induction a as [|x a IH]; cbn; [reflexivity|].
  rewrite IH. destruct (Ascii.eqb x old); cbn; [|reflexivity].
  now rewrite str_append_assoc.
Qed.

Lemma str_replace_join (old : ascii) (new : string) (l : list string) :
  str_replace old new (str_join (String old EmptyString) l)
  = str_join new (map (str_replace old new) l).
Proof.
  unfold str_join. induction l as [|x [|y l] IH]; [reflexivity | reflexivity |].
  change (String.concat (String old EmptyString) (x :: y :: l))
    with (x ++ String old EmptyString
            ++ String.concat (String old EmptyString) (y :: l))%string.
  change (String.concat new (map (str_replace old new) (x :: y :: l)))
    with (str_replace old new x ++ new
            ++ String.concat new (map (str_replace old new) (y :: l)))%string.
  rewrite !str_replace_app, IH. cbn [str_replace].
  rewrite Ascii.eqb_refl. cbn [str_replace].
  now rewrite str_append_nil_r.
Qed.

Lemma str_mem_app (c : ascii) (a b : string) :
  str_mem c (a ++ b) = str_mem c a || str_mem c b.
Proof.
  induction a as [|x a IH]; cbn; [reflexivity|].
  rewrite IH. now rewrite orb_assoc.
Qed.

Lemma str_mem_replace (c : ascii) (new s : string) :
  str_mem c new = false -> str_mem c (str_replace c new s) = false.
Proof.
  intros Hnew. induction s as [|x s IH]; cbn; [reflexivity|].
  destruct (Ascii.eqb x c) eqn:Ex.
  - rewrite str_mem_app, Hnew, IH. reflexivity.
  - cbn. rewrite Ex, IH. reflexivity.
Qed.

Lemma str_replace_absent (c : ascii) (new s : string) :
  str_mem c s = false -> str_replace c new s = s.
Proof.
  induction s as [|x s IH]; cbn; [reflexivity|].
  intros H. apply orb_false_iff in H as [Hx Hs].
  rewrite Hx, (IH Hs). reflexivity.
Qed.

(** ** The chat context *)

Lemma chat_context_join (texts : list string) :
  chat_context texts
  = str_join " ----------------------------- "
      (map (str_replace "010"%char " ----------------------------- ") texts).
Proof.
  exact (str_replace_join "010"%char " ----------------------------- " texts).
Qed.

(** X1.  The context [chat] puts in its prompt holds no line break: the chunk
    texts come joined by the dashed separator, and every line break inside a
    chunk text has become that separator too. *)
Theorem chat_context_separates_chunks (texts : list string) :
  chat_context texts
  = str_join " ----------------------------- "
      (map (str_replace "010"%char " ----------------------------- ") texts)
  /\ str_mem "010"%char (chat_context texts) = false.
Proof.
  split; [exact (chat_context_join texts)|].
  unfold chat_context. apply str_mem_replace. reflexivity.
Qed.

(** X2.  When no chunk text holds a line break, the context is the texts joined
    by the dashed separator. *)
Theorem chat_context_of_one_line_texts (texts : list string) :
  (forall t, In t texts -> str_mem "010"%char t = false) ->
  chat_context texts = str_join " ----------------------------- " texts.
Proof.
  intros Hclean.
  rewrite (chat_context_join texts).
  f_equal. induction texts as [|t texts IH]; [reflexivity|].
  cbn [map]. rewrite (str_replace_absent _ _ t (Hclean t (or_introl eq_refl))).
  rewrite IH; [reflexivity|]. intros t' Ht'. apply Hclean. now right.
Qed.

Lemma chat_context_of_one_line_texts_witness :
  (forall t, In t ["A cat sat on a mat."; "A dog ran in the park."]%string ->
             str_mem "010"%char t = false)
  /\ chat_context ["A cat sat on a mat."; "A dog ran in the park."]%string
     = "A cat sat on a mat. ----------------------------- A dog ran in the park."%string.
Proof.
  assert (H : forall t,
             In t ["A cat sat on a mat."; "A dog ran in the park."]%string ->
             str_mem "010"%char t = false).
  { intros t [<- | [<- | []]]; reflexivity. }
  split; [exact H|].
  exact (chat_context_of_one_line_texts _ H).
Defined.

(** ** [chat] past the datastore query *)

Section ChatCompletion.
Context {float Backend : Type}.
Variable get_chat_completion : list Message.t -> Outcome string.
Implicit Types (w : World float Backend) (requests : ChatRequest.t)
  (ds : DataStore.t float Backend).

(** X3.  When the datastore answers the query of [chat] with at least one result,
    the completion provider receives two messages: a system message whose
    prompt holds the context drawn from the chunks of the first result, and
    the user's content.  The provider's completion is returned as it is; a
    failure of the provider becomes status 500 with the detail "Internal
    Service Error". *)
Theorem chat_answers_with_the_completion requests w ds
  (results_0 : QueryResult.t float) (rest : list (QueryResult.t float))
  (b' : Backend) :
  ChatRequest.content requests <> EmptyString ->
  datastore w = Some ds ->
  DataStore.query ds [Query.mk (ChatRequest.content requests) None 3]
    (backend w) = (Return (results_0 :: rest), b') ->
  let messages :=
    chat_messages (ChatRequest.content requests)
      (map DocumentChunkWithScore.text (QueryResult.results results_0)) in
  let asked :=
    trace w
    ++ [DatastoreQuery [Query.mk (ChatRequest.content requests) None 3];
        Print [PyMessages messages]; GetChatCompletion messages] in
  (forall completion,
     get_chat_completion messages = Return completion ->
     chat get_chat_completion requests w
     = (Return completion, mkWorld (datastore w) b' asked))
  /\ (forall e,
        get_chat_completion messages = Raise e ->
        chat get_chat_completion requests w
        = (Raise (HTTPException 500 "Internal Service Error"),
           mkWorld (datastore w) b'
             (asked ++ [Print [PyStr "Error:"; PyExc e]; PrintExc e]))).
Proof.
  intros Hcontent Hds Hcall messages asked. subst messages asked.
  destruct w as [g b t]; cbn in Hds, Hcall; subst g.
  unfold chat, chat_messages, chat_context.
  destruct (ChatRequest.content requests) as [|c content]; [contradiction|].
  cbn [truthy Truthy_str negb].
  unfold datastore_query. step_handler. rewrite Hcall. cbn.
  split.
  - intros completion Hgot. rewrite Hgot. cbn.
    rewrite <- !app_assoc. reflexivity.
  - intros e Hgot. rewrite Hgot. cbn.
    rewrite <- !app_assoc. reflexivity.
Qed.

(** X4.  When the datastore answers the query of [chat] with an empty list, the
    handler fails with status 500 and the detail "Internal Service Error",
    and the completion provider is not asked. *)
Theorem chat_without_results_fails requests w ds (b' : Backend) :
  ChatRequest.content requests <> EmptyString ->
  datastore w = Some ds ->
  DataStore.query ds [Query.mk (ChatRequest.content requests) None 3]
    (backend w) = (Return [], b') ->
  chat get_chat_completion requests w
  = (Raise (HTTPException 500 "Internal Service Error"),
     mkWorld (datastore w) b'
       (trace w
        ++ [DatastoreQuery [Query.mk (ChatRequest.content requests) None 3];
            Print [PyStr "Error:";
                   PyExc (IndexError "list index out of range")];
            PrintExc (IndexError "list index out of range")])).
Proof.
  intros Hcontent Hds Hcall.
  destruct w as [g b t]; cbn in Hds, Hcall; subst g.
  unfold chat.
  destruct (ChatRequest.content requests) as [|c content]; [contradiction|].
  cbn [truthy Truthy_str negb].
  unfold datastore_query. step_handler. rewrite Hcall. cbn.
  rewrite <- !app_assoc. reflexivity.
Qed.

End ChatCompletion.

Lemma chat_answers_with_the_completion_witness :
  let requests := ChatRequest.mk "Where did the dog go?" in
  let w := Fixture.started [Fixture.dog] in
  ChatRequest.content requests <> EmptyString
  /\ fst (chat Fixture.get_chat_completion requests w)
     = Return "Hmm, I'm not sure."%string
  /\ fst (chat Fixture.no_completion requests w)
     = Raise (HTTPException 500 "Internal Service Error").
Proof.
  intros requests w.
  assert (Hcontent : ChatRequest.content requests <> EmptyString)
    by discriminate.
  split; [exact Hcontent|]. split.
  - exact (f_equal fst
             (proj1 (chat_answers_with_the_completion
                       Fixture.get_chat_completion requests w Fixture.memory
                       (QueryResult.mk "Where did the dog go?"
                          [Fixture.chunk_of Fixture.dog])
                       [] [Fixture.dog] Hcontent eq_refl eq_refl)
                _ eq_refl)).
  - exact (f_equal fst
             (proj2 (chat_answers_with_the_completion
                       Fixture.no_completion requests w Fixture.memory
                       (QueryResult.mk "Where did the dog go?"
                          [Fixture.chunk_of Fixture.dog])
                       [] [Fixture.dog] Hcontent eq_refl eq_refl)
                _ eq_refl)).
Defined.

Lemma chat_without_results_fails_witness :
  let requests := ChatRequest.mk "Where did the dog go?" in
  let w := mkWorld (Some Fixture.blank) [] [] in
  ChatRequest.content requests <> EmptyString
  /\ fst (chat Fixture.get_chat_completion requests w)
     = Raise (HTTPException 500 "Internal Service Error")
  /\ List.filter (fun ev => match ev with GetChatCompletion _ => true
                                        | _ => false end)
       (trace (snd (chat Fixture.get_chat_completion requests w))) = [].
Proof.
  intros requests w.
  assert (Hcontent : ChatRequest.content requests <> EmptyString)
    by discriminate.
  pose proof (chat_without_results_fails Fixture.get_chat_completion
                requests w Fixture.blank [] Hcontent eq_refl eq_refl) as Hrun.
  split; [exact Hcontent|]. split.
  - exact (f_equal fst Hrun).
  - rewrite Hrun. reflexivity.
Defined.

(** ** [delete] past its guard *)

Section DeleteBeyondTheGuard.
Context {float Backend : Type}.
Implicit Types (w : World float Backend) (request : DeleteRequest.t)
  (ds : DataStore.t float Backend).


(** X6.  With a deletion mode set, [delete] hands [ids], [filter] and
    [delete_all] to the datastore as they came, in one call, and answers
    with the boolean the datastore returned, [False] included. *)
Theorem delete_passes_the_request_through request w ds (success : bool)
  (b' : Backend) :
  ~ no_deletion_mode request ->
  datastore w = Some ds ->
  DataStore.delete ds (DeleteRequest.ids request)
    (DeleteRequest.filter request) (DeleteRequest.delete_all request)
    (backend w) = (Return success, b') ->
  delete request w
  = (Return (DeleteResponse.mk success),
     mkWorld (datastore w) b'
       (trace w ++ [DatastoreDelete (DeleteRequest.ids request)
                      (DeleteRequest.filter request)
                      (DeleteRequest.delete_all request)])).
Proof.
  intros Hset Hds Hcall.
  destruct w as [g b t]; cbn in Hds, Hcall; subst g.
  unfold delete. rewrite (deletion_mode_guard request Hset). cbn [negb].
  unfold datastore_delete. step_handler. rewrite Hcall. reflexivity.
Qed.

End DeleteBeyondTheGuard.


Lemma delete_passes_the_request_through_witness :
  let request :=
    DeleteRequest.mk (Some ["1"%string]) None (Some false) in
  ~ no_deletion_mode request
  /\ delete request (Fixture.started [Fixture.cat; Fixture.dog])
     = (Return (DeleteResponse.mk true),
        mkWorld (Some Fixture.memory) [Fixture.dog]
          [DatastoreDelete (Some ["1"%string]) None (Some false)]).
Proof.
  intros request.
  assert (Hset : ~ no_deletion_mode request).
  { intros ([H | H] & _); discriminate H. }
  split; [exact Hset|].
  exact (delete_passes_the_request_through request
           (Fixture.started [Fixture.cat; Fixture.dog]) Fixture.memory true
           [Fixture.dog] Hset eq_refl eq_refl).
Defined.

(** ** [upsert_file] *)

Section UpsertFile.
Context {float Backend : Type}.
Variable parse_raw : string -> Outcome DocumentMetadata.t.
Variable get_document_from_file :
  UploadFile.t -> DocumentMetadata.t -> Outcome Document.t.
Variable str : Exception -> string.
Implicit Types (w : World float Backend) (ds : DataStore.t float Backend)
  (file : UploadFile.t) (metadata : option string).

Lemma upsert_file_run file metadata w (metadata_obj : DocumentMetadata.t) :
  metadata_obj_of parse_raw metadata w = (Return metadata_obj, w) ->
  upsert_file parse_raw get_document_from_file str file metadata w
  = upsert_document get_document_from_file str file metadata_obj w.
Proof.
  intros Hmeta. unfold upsert_file, bind at 1. rewrite Hmeta. reflexivity.
Qed.

(** X7.  The metadata step of [upsert_file] never fails and has no effect: it
    yields the default metadata, or, for a form field that is present and
    not empty, what [parse_raw] returned for it.  An empty form field is not
    parsed at all. *)
Theorem metadata_obj_of_never_fails metadata w :
  exists metadata_obj,
    metadata_obj_of parse_raw metadata w = (Return metadata_obj, w)
    /\ (metadata_obj = default_metadata
        \/ exists raw,
             metadata = Some raw /\ raw <> EmptyString
             /\ parse_raw raw = Return metadata_obj).
Proof.
  unfold metadata_obj_of. step_handler.
  destruct metadata as [[|c raw]|]; cbn.
  - eexists. split; [reflexivity|]. now left.
  - destruct (parse_raw (String c raw)) as [metadata_obj|e] eqn:Hparse.
    + exists metadata_obj. split; [reflexivity|]. right.
      exists (String c raw). repeat split; [discriminate | exact Hparse].
    + eexists. split; [reflexivity|]. now left.
  - eexists. split; [reflexivity|]. now left.
Qed.

(** X8.  With a metadata form field that parses, the file is extracted with the
    parsed metadata, the resulting document is upserted alone, and the ids
    the datastore returns are the response. *)
Theorem upsert_file_returns_the_datastore_ids file (raw : string) w ds
  (metadata_obj : DocumentMetadata.t) (document : Document.t)
  (ids : list string) (b' : Backend) :
  raw <> EmptyString ->
  parse_raw raw = Return metadata_obj ->
  get_document_from_file file metadata_obj = Return document ->
  datastore w = Some ds ->
  DataStore.upsert ds [document] (backend w) = (Return ids, b') ->
  upsert_file parse_raw get_document_from_file str file (Some raw) w
  = (Return (UpsertResponse.mk ids),
     mkWorld (datastore w) b'
       (trace w ++ [GetDocumentFromFile file metadata_obj;
                    DatastoreUpsert [document]])).
Proof.
  intros Hraw Hparse Hdoc Hds Hcall.
  assert (Hmeta : metadata_obj_of parse_raw (Some raw) w
                  = (Return metadata_obj, w)).
  { unfold metadata_obj_of. step_handler.
    destruct raw as [|c raw]; [contradiction|]. cbn. now rewrite Hparse. }
  rewrite (upsert_file_run file (Some raw) w metadata_obj Hmeta).
  destruct w as [g b t]; cbn in Hds, Hcall; subst g.
  unfold upsert_document, datastore_upsert. step_handler.
  rewrite Hdoc, Hcall. cbn. rewrite <- !app_assoc. reflexivity.
Qed.

(** X9.  An exception raised while the document is extracted from the file
    leaves [upsert_file] as it is, not turned into an [HTTPException]; the
    datastore is not called. *)
Theorem upsert_file_extraction_error_escapes file metadata w
  (metadata_obj : DocumentMetadata.t) (e : Exception) :
  metadata_obj_of parse_raw metadata w = (Return metadata_obj, w) ->
  get_document_from_file file metadata_obj = Raise e ->
  upsert_file parse_raw get_document_from_file str file metadata w
  = (Raise e,
     mkWorld (datastore w) (backend w)
       (trace w ++ [GetDocumentFromFile file metadata_obj])).
Proof.
  intros Hmeta Hdoc.
  rewrite (upsert_file_run file metadata w metadata_obj Hmeta).
  unfold upsert_document. step_handler. rewrite Hdoc. reflexivity.
Qed.

(** X10.  An exception raised by the datastore during [upsert_file] is answered
    with status 500 and a detail that holds the text of the exception,
    between "str(" and ")". *)
Theorem upsert_file_reports_the_exception_text file metadata w ds
  (metadata_obj : DocumentMetadata.t) (document : Document.t)
  (e : Exception) (b' : Backend) :
  metadata_obj_of parse_raw metadata w = (Return metadata_obj, w) ->
  get_document_from_file file metadata_obj = Return document ->
  datastore w = Some ds ->
  DataStore.upsert ds [document] (backend w) = (Raise e, b') ->
  fst (upsert_file parse_raw get_document_from_file str file metadata w)
  = Raise (HTTPException 500 ("str(" ++ str e ++ ")")%string).
Proof.
  intros Hmeta Hdoc Hds Hcall.
  rewrite (upsert_file_run file metadata w metadata_obj Hmeta).
  exact (upsert_document_reports_the_exception_text get_document_from_file
           str file metadata_obj document w ds e b' Hds Hdoc Hcall).
Qed.

End UpsertFile.

Lemma upsert_file_returns_the_datastore_ids_witness :
  let document :=
    Document.mk None "remember the milk"
      (Some (DocumentMetadata.mk None None None None None)) in
  Fixture.parse_raw "{}" = Return (DocumentMetadata.mk None None None None None)
  /\ upsert_file Fixture.parse_raw Fixture.get_document_from_file Fixture.str
       Fixture.notes (Some "{}"%string) (Fixture.started [])
     = (Return (UpsertResponse.mk ["generated-id"%string]),
        mkWorld (Some Fixture.memory) [document]
          [GetDocumentFromFile Fixture.notes
             (DocumentMetadata.mk None None None None None);
           DatastoreUpsert [document]]).
Proof.
  intros document. split; [reflexivity|].
  assert (Hraw : "{}"%string <> EmptyString) by discriminate.
  exact (upsert_file_returns_the_datastore_ids Fixture.parse_raw
           Fixture.get_document_from_file Fixture.str Fixture.notes
           "{}"%string (Fixture.started []) Fixture.memory
           (DocumentMetadata.mk None None None None None) document
           ["generated-id"%string] [document]
           Hraw eq_refl eq_refl eq_refl eq_refl).
Defined.

Lemma upsert_file_extraction_error_escapes_witness :
  Fixture.unreadable Fixture.notes default_metadata
  = Raise (Error "ValueError" "Unsupported file type")
  /\ upsert_file Fixture.parse_raw Fixture.unreadable Fixture.str
       Fixture.notes None (Fixture.started [Fixture.cat])
     = (Raise (Error "ValueError" "Unsupported file type"),
        mkWorld (Some Fixture.memory) [Fixture.cat]
          [GetDocumentFromFile Fixture.notes default_metadata]).
Proof.
  split; [reflexivity|].
  exact (upsert_file_extraction_error_escapes Fixture.parse_raw
           Fixture.unreadable Fixture.str Fixture.notes None
           (Fixture.started [Fixture.cat]) default_metadata
           (Error "ValueError" "Unsupported file type") eq_refl eq_refl).
Defined.

Lemma upsert_file_reports_the_exception_text_witness :
  datastore Fixture.degraded = Some Fixture.broken
  /\ fst (upsert_file Fixture.parse_raw Fixture.get_document_from_file
            Fixture.str Fixture.notes None Fixture.degraded)
     = Raise (HTTPException 500 "str(index unavailable)").
Proof.
  split; [reflexivity|].
  exact (upsert_file_reports_the_exception_text Fixture.parse_raw
           Fixture.get_document_from_file Fixture.str Fixture.notes None
           Fixture.degraded Fixture.broken default_metadata
           (Document.mk None "remember the milk" (Some default_metadata))
           (Error "BackendError" "index unavailable") []
           eq_refl eq_refl eq_refl eq_refl).
Defined.

(** ** The global [datastore] while it is unbound *)

Section UnboundDatastore.
Context {float Backend : Type}.
Variable get_chat_completion : list Message.t -> Outcome string.
Variable get_datastore :
  Backend -> Outcome (DataStore.t float Backend) * Backend.
Implicit Types (w : World float Backend).

(** X11.  While the global [datastore] is unbound, a handler that reaches its
    datastore call fails with status 500 and the detail "Internal Service
    Error": the [NameError] is printed, the state behind the handle is left
    as it was and no datastore call is made. *)
Theorem unbound_datastore_is_answered_with_500 w :
  datastore w = None ->
  let name_error := NameError "name 'datastore' is not defined" in
  let internal := HTTPException 500 "Internal Service Error" in
  let after evs := mkWorld None (backend w) (trace w ++ evs) in
  (forall request : UpsertRequest.t,
     upsert request w
     = (Raise internal, after [Print [PyStr "Error:"; PyExc name_error]]))
  /\ (forall request : QueryRequest.t,
        query_main request w
        = (Raise internal, after [Print [PyStr "Error:"; PyExc name_error];
                          PrintExc name_error])
        /\ query request w
           = (Raise internal, after [Print [PyStr "Error:"; PyExc name_error]]))
  /\ (forall request : DeleteRequest.t,
        ~ no_deletion_mode request ->
        delete request w
        = (Raise internal, after [Print [PyStr "Error:"; PyExc name_error]]))
  /\ (forall requests : ChatRequest.t,
        ChatRequest.content requests <> EmptyString ->
        chat get_chat_completion requests w
        = (Raise internal, after [Print [PyStr "Error:"; PyExc name_error];
                          PrintExc name_error])).
Proof.
  intros Hunbound name_error internal after. subst name_error internal after.
  destruct w as [g b t]; cbn in Hunbound; subst g.
  split; [|split; [|split]].
  - intros request. unfold upsert, datastore_upsert. step_handler. reflexivity.
  - intros request. unfold query_main, query, datastore_query. step_handler.
    cbn. rewrite <- !app_assoc. split; reflexivity.
  - intros request Hset. unfold delete.
    rewrite (deletion_mode_guard request Hset). cbn [negb].
    unfold datastore_delete. step_handler. reflexivity.
  - intros requests Hcontent. unfold chat.
    destruct (ChatRequest.content requests) as [|c content]; [contradiction|].
    cbn [truthy Truthy_str negb].
    unfold datastore_query. step_handler. cbn.
    rewrite <- !app_assoc. reflexivity.
Qed.

(** X12.  When [get_datastore] raises, [startup] raises the same exception and
    binds nothing: the global [datastore] is what it was before the hook. *)
Theorem failed_startup_binds_nothing w (e : Exception) (b1 : Backend) :
  get_datastore (backend w) = (Raise e, b1) ->
  startup get_datastore w
  = (Raise e, mkWorld (datastore w) b1 (trace w ++ [GetDatastore])).
Proof.
  intros Hget. unfold startup. step_handler. rewrite Hget. reflexivity.
Qed.

End UnboundDatastore.

Lemma unbound_datastore_is_answered_with_500_witness :
  datastore (boot (float:=Z) [Fixture.cat]) = None
  /\ upsert (UpsertRequest.mk [Fixture.dog]) (boot (float:=Z) [Fixture.cat])
     = (Raise (HTTPException 500 "Internal Service Error"),
        mkWorld None [Fixture.cat]
          [Print [PyStr "Error:";
                  PyExc (NameError "name 'datastore' is not defined")]]).
Proof.
  split; [reflexivity|].
  exact (proj1 (unbound_datastore_is_answered_with_500
                  Fixture.get_chat_completion (boot (float:=Z) [Fixture.cat])
                  eq_refl)
           (UpsertRequest.mk [Fixture.dog])).
Defined.

Lemma failed_startup_binds_nothing_witness :
  Fixture.no_datastore []
  = (Raise (Error "ValueError" "Unsupported vector database"), [])
  /\ startup Fixture.no_datastore (boot [])
     = (Raise (Error "ValueError" "Unsupported vector database"),
        mkWorld None [] [GetDatastore]).
Proof.
  split; [reflexivity|].
  exact (failed_startup_binds_nothing Fixture.no_datastore (boot [])
           (Error "ValueError" "Unsupported vector database") [] eq_refl).
Defined.

(** ** What a route may raise, and what it may ask of the datastore *)

(** Case analysis on what the collaborators of a handler answer. *)
Ltac case_outcomes :=
  repeat match goal with
         | |- context [match ?x with _ => _ end] =>
             lazymatch x with
             | context [match _ with _ => _ end] => fail
             | _ => destruct x eqn:?; cbn
             end
         end.

Section Routes.
Context {float Backend : Type}.
Variable parse_raw : string -> Outcome DocumentMetadata.t.
Variable get_document_from_file :
  UploadFile.t -> DocumentMetadata.t -> Outcome Document.t.
Variable get_chat_completion : list Message.t -> Outcome string.
Variable list_indexes : Outcome (list string).
Variable str : Exception -> string.
Implicit Types (w : World float Backend) (r : Request).

Local Abbreviation the_route := (route (float:=float) (Backend:=Backend)
  parse_raw get_document_from_file get_chat_completion list_indexes str).

(** X13.  Every route but upsert-file raises nothing but the three errors the
    handlers build themselves: status 400 with one of the two guard
    messages, or status 500 with the detail "Internal Service Error".  No
    exception of a collaborator reaches the requester. *)
Theorem routes_raise_only_handler_errors r w (e : Exception) :
  (forall file metadata, r <> PostUpsertFile file metadata) ->
  fst (the_route r w) = Raise e ->
  handler_error e.
Proof.
  intros Hroute. unfold handler_error.
  destruct r as [file metadata|request|request|requests| |request|request];
    [exfalso; exact (Hroute file metadata eq_refl)| | | | | |];
    unfold route, upsert, query_main, chat, list_index, query, delete,
      datastore_upsert, datastore_query, datastore_delete, first_item;
    step_handler; case_outcomes;
    intros H; try discriminate H; injection H as <-; auto.
Qed.

(** X14.  Whatever [upsert_file] raises, the metadata step has chosen a
    metadata value and one of three things has happened: the extraction of
    the document with that metadata raised, and its exception is what
    leaves the handler; or the document was extracted and the datastore's
    [upsert] on it raised, and the handler answers status 500 with the text
    of that exception in the detail; or the document was extracted while
    the global [datastore] was unbound, and the handler answers status 500
    with the text of the [NameError] in the detail. *)
Theorem upsert_file_raises_500_or_the_extraction_error
  (file : UploadFile.t) (metadata : option string) w (e : Exception) :
  fst (upsert_file parse_raw get_document_from_file str file metadata w)
  = Raise e ->
  exists metadata_obj : DocumentMetadata.t,
    metadata_obj_of parse_raw metadata w = (Return metadata_obj, w)
    /\ (get_document_from_file file metadata_obj = Raise e
        \/ exists document : Document.t,
             get_document_from_file file metadata_obj = Return document
             /\ ((exists ds e' b',
                    datastore w = Some ds
                    /\ DataStore.upsert ds [document] (backend w)
                       = (Raise e', b')
                    /\ e = HTTPException 500
                             ("str(" ++ str e' ++ ")")%string)
                 \/ (datastore w = None
                     /\ e = HTTPException 500
                              ("str("
                               ++ str (NameError
                                         "name 'datastore' is not defined")
                               ++ ")")%string))).
Proof.
  unfold upsert_file, bind at 1.
  destruct (metadata_obj_of parse_raw metadata w) as [o w0] eqn:Hmeta.
  assert (Hpure : exists metadata_obj, (o, w0) = (Return metadata_obj, w)).
  { revert Hmeta. unfold metadata_obj_of. step_handler.
    destruct (truthy metadata); [destruct metadata as [raw|]|];
      try (intros <-; eexists; reflexivity).
    destruct (parse_raw raw); intros <-; eexists; reflexivity. }
  destruct Hpure as [metadata_obj Hpure]. injection Hpure as -> ->.
  intros Hfail. exists metadata_obj. split; [reflexivity|].
  revert Hfail. destruct w as [g b t].
  unfold upsert_document, datastore_upsert. step_handler.
  destruct (get_document_from_file file metadata_obj) as [document|e0];
    cbn.
  - destruct g as [ds|]; cbn.
    + destruct (DataStore.upsert ds [document] b) as [[ids|e'] b'] eqn:Hcall;
        cbn; intros H; [discriminate H|].
      injection H as <-. right. exists document. split; [reflexivity|].
      left. exists ds, e', b'. repeat split. exact Hcall.
    + intros H. injection H as <-. right. exists document.
      split; [reflexivity|]. right. split; reflexivity.
  - intros H. injection H as <-. now left.
Qed.

(** X15.  A request reaches the datastore at most once, and only through the call
    its route is written to make, on the arguments of the request: an
    upsert route never queries or deletes, a query or chat route never
    writes, and the list-index route makes no datastore call at all. *)
Theorem route_calls_the_datastore_at_most_once r w :
  exists evs,
    trace (snd (the_route r w)) = trace w ++ evs
    /\ (datastore_calls evs = []
        \/ exists ev,
             datastore_calls evs = [ev]
             /\ route_call get_document_from_file r ev).
Proof.
  destruct w as [g b t].
  destruct r as [file metadata|request|request|requests| |request|request];
    unfold route, upsert_file, metadata_obj_of, upsert_document, upsert,
      query_main, chat, list_index, query, delete,
      datastore_upsert, datastore_query, datastore_delete, first_item;
    step_handler; case_outcomes;
    rewrite <- ?app_assoc; cbn [app];
    first
      [ exists []; split; [now rewrite app_nil_r | left; reflexivity]
      | eexists; split;
        [ reflexivity
        | cbn; first [ left; reflexivity
                     | right; eexists; split; [reflexivity | cbn; eauto] ] ] ].
Qed.

End Routes.

Lemma routes_raise_only_handler_errors_witness :
  let r := PostChat (ChatRequest.mk EmptyString) in
  let e := HTTPException 400 "One of content is required" in
  (forall file metadata, r <> PostUpsertFile file metadata)
  /\ fst (route Fixture.parse_raw Fixture.get_document_from_file
            Fixture.get_chat_completion Fixture.list_indexes Fixture.str
            r (Fixture.started [])) = Raise e
  /\ handler_error e.
Proof.
  intros r e.
  assert (Hroute : forall file metadata, r <> PostUpsertFile file metadata)
    by discriminate.
  split; [exact Hroute|]. split; [reflexivity|].
  exact (routes_raise_only_handler_errors Fixture.parse_raw
           Fixture.get_document_from_file Fixture.get_chat_completion
           Fixture.list_indexes Fixture.str r (Fixture.started []) e
           Hroute eq_refl).
Defined.

Lemma upsert_file_raises_500_or_the_extraction_error_witness :
  let e := HTTPException 500 "str(index unavailable)" in
  fst (upsert_file Fixture.parse_raw Fixture.get_document_from_file
         Fixture.str Fixture.notes None Fixture.degraded) = Raise e
  /\ exists metadata_obj document,
       metadata_obj_of Fixture.parse_raw None Fixture.degraded
       = (Return metadata_obj, Fixture.degraded)
       /\ Fixture.get_document_from_file Fixture.notes metadata_obj
          = Return document.
Proof.
  intros e. split; [reflexivity|].
  destruct (upsert_file_raises_500_or_the_extraction_error Fixture.parse_raw
              Fixture.get_document_from_file Fixture.str Fixture.notes None
              Fixture.degraded e eq_refl)
    as (metadata_obj & Hmeta & [Hraised | (document & Hdoc & _)]).
  - discriminate Hraised.
  - exists metadata_obj, document. split; assumption.
Defined.

Section Frame.
Context {float Backend : Type}.
Variable parse_raw : string -> Outcome DocumentMetadata.t.
Variable get_document_from_file :
  UploadFile.t -> DocumentMetadata.t -> Outcome Document.t.
Variable get_chat_completion : list Message.t -> Outcome string.
Variable list_indexes : Outcome (list string).
Variable str : Exception -> string.
Implicit Types (w : World float Backend) (r : Request).

Lemma app_eq_self {A} (l l' : list A) : l ++ l' = l -> l' = [].
Proof. intros H. apply (app_inv_head l). now rewrite app_nil_r. Qed.

(** X16.  The state behind the backend handle changes only through a datastore
    call: a request whose handling adds no datastore call to the trace
    leaves that state as it found it. *)
Theorem route_without_datastore_call_keeps_backend r w :
  datastore_calls
    (trace (snd (route parse_raw get_document_from_file get_chat_completion
                   list_indexes str r w)))
  = datastore_calls (trace w) ->
  backend (snd (route parse_raw get_document_from_file get_chat_completion
                  list_indexes str r w))
  = backend w.
Proof.
  destruct w as [g b t]. unfold datastore_calls.
  destruct r as [file metadata|request|request|requests| |request|request];
    unfold route, upsert_file, metadata_obj_of, upsert_document, upsert,
      query_main, chat, list_index, query, delete,
      datastore_upsert, datastore_query, datastore_delete, first_item;
    step_handler; case_outcomes;
    rewrite <- ?app_assoc; cbn [app];
    try reflexivity;
    rewrite filter_app; cbn; intros H; apply app_eq_self in H;
    discriminate H.
Qed.

End Frame.

Lemma route_without_datastore_call_keeps_backend_witness :
  let r := DeleteDelete (DeleteRequest.mk (Some []) None None) in
  let w := Fixture.started [Fixture.cat] in
  datastore_calls
    (trace (snd (route Fixture.parse_raw Fixture.get_document_from_file
                   Fixture.get_chat_completion Fixture.list_indexes
                   Fixture.str r w)))
  = datastore_calls (trace w)
  /\ backend (snd (route Fixture.parse_raw Fixture.get_document_from_file
                     Fixture.get_chat_completion Fixture.list_indexes
                     Fixture.str r w))
     = [Fixture.cat].
Proof.
  intros r w. split; [reflexivity|].
  exact (route_without_datastore_call_keeps_backend Fixture.parse_raw
           Fixture.get_document_from_file Fixture.get_chat_completion
           Fixture.list_indexes Fixture.str r w eq_refl).
Defined.
